(** * The BLE data (SPS) module of ubxlib: [ble/src/u_ble_data_extmod.c]

    A shallow embedding of the channel registry, the connection-event
    correlator, the receive path and the callback registration functions,
    followed by the properties of the module's specification.

    Conventions of the embedding.
    - A nullable C pointer is an [option positive]: [None] is [NULL], and
      [Some p] is the address [p].  Function pointers are treated alike.
    - [int32_t] and [uint32_t] values are integers of [Z]; casts and
      wrap-around are written out where the source has them.
    - The singly linked list hanging off [gpChannelList] is a Rocq list in
      link order; a pointer to a node is its position in that list.
    - Calls into collaborators (AT client, EDM stream, event queue) and into
      user callbacks are recorded, in order, in the [trace] of the state.
      What a collaborator returns is an argument of the function calling it.
    - [uPortLog] output and the mutex calls are not modelled: every function
      is one atomic step. *)

From Stdlib Require Import ZArith Lia.
From Stdlib.Init Require Import Byte.
From stdpp Require Import base option list functions gmap.

Local Open Scope Z_scope.

(** ** Integers *)

(** The cast [(int32_t) x] of a 32-bit unsigned value. *)
Definition to_int32 (x : Z) : Z := (x + 2 ^ 31) mod 2 ^ 32 - 2 ^ 31.

(** [x++] on a [uint32_t]. *)
Definition uint32_incr (x : Z) : Z := (x + 1) mod 2 ^ 32.

(** ** What the module takes from headers and collaborators

    The macros and enum constants below come from headers that are not part
    of the translated file ([u_ble_data.h], [u_error_common.h],
    [u_short_range.h]); [addrArrayToString] and
    [pUShortRangePrivateGetInstance] are functions of other modules.  They
    are parameters of the development. *)
Class Platform := {
  U_BLE_DATA_MAX_CONNECTIONS : Z;
  U_BLE_DATA_BUFFER_SIZE : nat;
  U_BLE_DATA_DEFAULT_SEND_TIMEOUT_MS : Z;
  U_ERROR_COMMON_SUCCESS : Z;
  U_ERROR_COMMON_NOT_INITIALISED : Z;
  U_ERROR_COMMON_INVALID_PARAMETER : Z;
  U_SHORT_RANGE_EVENT_CONNECTED : Z;
  U_SHORT_RANGE_EVENT_DISCONNECTED : Z;
  addrArrayToString : list byte → list byte;
  pUShortRangePrivateGetInstance : Z → option positive;
}.

(** The ring buffer of [u_ringbuffer.c], as the translated file calls it:
    [ringBufferCreate (&rb, pBuffer, size)], [ringBufferDataSize (&rb)],
    [ringBufferAdd (&rb, pData, length)] with its [bool] result, and
    [ringBufferRead (&rb, pData, length)] with the bytes it copied out. *)
Class RingBuffer := {
  ringBuffer_t : Type;
  ringBufferCreate : nat → ringBuffer_t;
  ringBufferDataSize : ringBuffer_t → nat;
  ringBufferAdd : ringBuffer_t → list byte → bool * ringBuffer_t;
  ringBufferRead : ringBuffer_t → Z → list byte * ringBuffer_t;
}.

(** Modelled from the spec: [u_ringbuffer.c] is missing.  Section 4.3 gives a
    FIFO of fixed capacity, set at creation and never resized. *)
Record specBuffer := SpecBuffer {
  capacity : nat;
  stored : list byte;
}.

(** Modelled from the spec: [ringBufferCreate] is missing.  The buffer starts
    empty, with the capacity it is given. *)
Definition specCreate (size : nat) : specBuffer := SpecBuffer size [].

(** Modelled from the spec: [ringBufferDataSize] is missing.  [size()] is the
    current occupied byte count. *)
Definition specDataSize (rb : specBuffer) : nat := length (stored rb).

(** Modelled from the spec: [ringBufferAdd] is missing.  [push(bytes)]
    appends as many bytes as fit; bytes beyond capacity are dropped.  The
    [bool] says whether everything fitted. *)
Definition specAdd (rb : specBuffer) (pData : list byte) : bool * specBuffer :=
  let room := (capacity rb - length (stored rb))%nat in
  (bool_decide (length pData ≤ room)%nat,
   SpecBuffer (capacity rb) (stored rb ++ take room pData)).

(** Modelled from the spec: [ringBufferRead] is missing.  [pop(maxLen)]
    removes and returns up to [maxLen] bytes in write order, fewer if less is
    available, none if nothing is. *)
Definition specRead (rb : specBuffer) (maxLen : Z) : list byte * specBuffer :=
  (take (Z.to_nat maxLen) (stored rb),
   SpecBuffer (capacity rb) (drop (Z.to_nat maxLen) (stored rb))).

(** Modelled from the spec: the ring buffer of section 4.3. *)
Definition specRingBuffer : RingBuffer :=
  {| ringBuffer_t := specBuffer;
     ringBufferCreate := specCreate;
     ringBufferDataSize := specDataSize;
     ringBufferAdd := specAdd;
     ringBufferRead := specRead |}.



(** A small platform to evaluate the functions on: two channels at most,
    four bytes of receive buffer, the only instance at address 1 under
    handle 1. *)
Definition smallPlatform : Platform :=
  {| U_BLE_DATA_MAX_CONNECTIONS := 2;
     U_BLE_DATA_BUFFER_SIZE := 4;
     U_BLE_DATA_DEFAULT_SEND_TIMEOUT_MS := 100;
     U_ERROR_COMMON_SUCCESS := 0;
     U_ERROR_COMMON_NOT_INITIALISED := -2;
     U_ERROR_COMMON_INVALID_PARAMETER := -5;
     U_SHORT_RANGE_EVENT_CONNECTED := 0;
     U_SHORT_RANGE_EVENT_DISCONNECTED := 1;
     addrArrayToString := λ a, a;
     pUShortRangePrivateGetInstance :=
       λ h, if bool_decide (h = 1) then Some 1%positive else None |}.

(** ** The channel registry *)

Section Registry.
Context `{Platform} `{RingBuffer}.

(** [uBleDataSpsChannel_t] without its [pNext] link; [pRxBuffer] is the
    storage inside [rxRingBuffer]. *)
Record uBleDataSpsChannel_t := SpsChannel {
  channel : Z;
  pInstance : option positive;
  rxRingBuffer : ringBuffer_t;
  txTimeout : Z;
}.

(** What [createSpsChannel] writes into the node it has allocated. *)
Definition initSpsChannel (pInst : option positive) (chan : Z)
  : uBleDataSpsChannel_t :=
  {| channel := chan;
     pInstance := pInst;
     rxRingBuffer := ringBufferCreate U_BLE_DATA_BUFFER_SIZE;
     txTimeout := U_BLE_DATA_DEFAULT_SEND_TIMEOUT_MS |}.

(** The loop [while (pChannel->pNext != NULL) { ...; nbrOfChannels++; }],
    over the nodes behind the current one. *)
Fixpoint countToLast (pNext : list uBleDataSpsChannel_t) (nbrOfChannels : Z)
  : Z :=
  match pNext with
  | [] => nbrOfChannels
  | _ :: pNext' => countToLast pNext' (uint32_incr nbrOfChannels)
  end.

(** [createSpsChannel]; [malloc] says whether the allocation succeeds. *)
Definition createSpsChannel (malloc : bool) (pInst : option positive)
    (chan : Z) (pListHead : list uBleDataSpsChannel_t)
  : list uBleDataSpsChannel_t :=
  match pListHead with
  | [] => if malloc then [initSpsChannel pInst chan] else []
  | _ :: pNext =>
      let nbrOfChannels := countToLast pNext 1 in
      if bool_decide (nbrOfChannels < U_BLE_DATA_MAX_CONNECTIONS) && malloc
      then pListHead ++ [initSpsChannel pInst chan]
      else pListHead
  end.

(** The test of both lookup loops. *)
Definition isSpsChannel (pInst : option positive) (chan : Z)
    (pChannel : uBleDataSpsChannel_t) : bool :=
  bool_decide (pInstance pChannel = pInst)
  && bool_decide (channel pChannel = chan).

(** [getSpsChannel]: the first node that matches, as its position and its
    contents, or [None] for [NULL]. *)
Fixpoint getSpsChannel (pInst : option positive) (chan : Z)
    (pListHead : list uBleDataSpsChannel_t)
  : option (nat * uBleDataSpsChannel_t) :=
  match pListHead with
  | [] => None
  | pChannel :: pNext =>
      if isSpsChannel pInst chan pChannel then Some (0%nat, pChannel)
      else prod_map S id <$> getSpsChannel pInst chan pNext
  end.

(** The loop of [deleteSpsChannel] once [pPrevChannel] is not [NULL]: the
    first match is unlinked by [pPrevChannel->pNext = pChannel->pNext]. *)
Fixpoint unlinkSpsChannel (pInst : option positive) (chan : Z)
    (pChannel : list uBleDataSpsChannel_t) : list uBleDataSpsChannel_t :=
  match pChannel with
  | [] => []
  | c :: pNext =>
      if isSpsChannel pInst chan c then pNext
      else c :: unlinkSpsChannel pInst chan pNext
  end.

(** [deleteSpsChannel].  When the head matches, [pPrevChannel] is still
    [NULL] and the source stores [NULL] into [*ppListHead]. *)
Definition deleteSpsChannel (pInst : option positive) (chan : Z)
    (pListHead : list uBleDataSpsChannel_t) : list uBleDataSpsChannel_t :=
  match pListHead with
  | [] => []
  | c :: pNext =>
      if isSpsChannel pInst chan c then []
      else c :: unlinkSpsChannel pInst chan pNext
  end.

(** [deleteAllSpsChannels]. *)
Definition deleteAllSpsChannels (pListHead : list uBleDataSpsChannel_t)
  : list uBleDataSpsChannel_t := [].

End Registry.

(** ** Module state *)

(** The fields of [uShortRangePrivateInstance_t] that the translated file
    reads or writes.  The struct is declared in [u_short_range_private.h]. *)
Record uShortRangePrivateInstance_t := ShortRangeInstance {
  atHandle : option positive;
  streamHandle : Z;
  pSpsConnectionCallback : option positive;
  pSpsConnectionCallbackParameter : option positive;
  pPendingSpsConnectionEvent : option positive;
  pBtDataCallback : option positive;
  pBtDataAvailableCallback : option positive;
  pBtDataCallbackParameter : option positive;
}.

(** [uBleDataSpsConnection_t]; its [pInstance] field is [statusInstance]
    here. *)
Record uBleDataSpsConnection_t := SpsConnection {
  statusInstance : option positive;
  connHandle : Z;
  type : Z;
  address : list byte;
  dataChannel : Z;
  mtu : Z;
  pCallback : option positive;
  pCallbackParameter : option positive;
}.

(** [bleDataEvent_t]; its fields [channel] and [pInstance]. *)
Record bleDataEvent_t := BleDataEvent {
  eventChannel : Z;
  eventInstance : positive;
}.

(** The two URC prefixes, ["+UUBTACLC:"] and ["+UUBTACLD:"]. *)
Inductive urcPrefix := UUBTACLC | UUBTACLD.

Section State.
Context `{Platform} `{RingBuffer}.

(** Calls that leave the module.  A user callback is recorded with the
    channel list as it stands when the callback runs. *)
Inductive effect :=
| uAtClientCallback (at_ : option positive) (pParam : option positive)
| uPortEventQueueOpen
| uPortEventQueueSend (handle : Z) (event : bleDataEvent_t)
| uPortEventQueueClose (handle : Z)
| uAtClientSetUrcHandler (at_ : option positive) (prefix : urcPrefix)
| uAtClientRemoveUrcHandler (at_ : option positive) (prefix : urcPrefix)
| uShortRangeConnectionStatusCallback (bleHandle : Z) (set : bool)
    (pParam : option positive)
| uShortRangeEdmStreamBtEventCallbackSet (stream : Z) (set : bool)
    (pParam : option positive)
| uShortRangeEdmStreamDataEventCallbackSet (stream : Z) (set : bool)
    (pParam : option positive)
| uShortRangeEdmStreamWrite (stream chan : Z) (pData : list byte)
    (timeout : Z)
| callSpsConnectionCallback (f : positive) (conn : Z) (addr : list byte)
    (kind chan mtu_ : Z) (pParam : option positive)
    (registry : list uBleDataSpsChannel_t)
| callBtDataCallback (f : positive) (chan : Z) (pData : list byte)
    (pParam : option positive)
| callBtDataAvailableCallback (f : positive) (chan : Z)
    (pParam : option positive) (registry : list uBleDataSpsChannel_t).

(** The static variables of the file, the memory they point into, and the
    calls made so far.  [instances] is the memory holding the short range
    instances, by address: the module neither allocates nor frees them.
    [heap] holds the [uBleDataSpsConnection_t] records obtained from
    [malloc]. *)
Record State := mkState {
  instances : positive → uShortRangePrivateInstance_t;
  heap : gmap positive uBleDataSpsConnection_t;
  gpChannelList : list uBleDataSpsChannel_t;
  gBleDataEventQueue : Z;
  trace : list effect;
}.

Definition withInstance (p : positive)
    (f : uShortRangePrivateInstance_t → uShortRangePrivateInstance_t)
    (s : State) : State :=
  mkState (<[p := f (instances s p)]> (instances s)) (heap s)
          (gpChannelList s) (gBleDataEventQueue s) (trace s).

Definition withHeap
    (f : gmap positive uBleDataSpsConnection_t →
         gmap positive uBleDataSpsConnection_t) (s : State) : State :=
  mkState (instances s) (f (heap s)) (gpChannelList s)
          (gBleDataEventQueue s) (trace s).

Definition withChannelList
    (f : list uBleDataSpsChannel_t → list uBleDataSpsChannel_t)
    (s : State) : State :=
  mkState (instances s) (heap s) (f (gpChannelList s))
          (gBleDataEventQueue s) (trace s).

Definition withEventQueue (q : Z) (s : State) : State :=
  mkState (instances s) (heap s) (gpChannelList s) q (trace s).

Definition emit (e : effect) (s : State) : State :=
  mkState (instances s) (heap s) (gpChannelList s) (gBleDataEventQueue s)
          (trace s ++ [e]).

(** Field assignments on the instance. *)
Definition setPending (pStatus : option positive)
    (i : uShortRangePrivateInstance_t) : uShortRangePrivateInstance_t :=
  ShortRangeInstance (atHandle i) (streamHandle i)
    (pSpsConnectionCallback i) (pSpsConnectionCallbackParameter i)
    pStatus
    (pBtDataCallback i) (pBtDataAvailableCallback i)
    (pBtDataCallbackParameter i).

Definition setSpsConnectionCallback (cb param : option positive)
    (i : uShortRangePrivateInstance_t) : uShortRangePrivateInstance_t :=
  ShortRangeInstance (atHandle i) (streamHandle i)
    cb param
    (pPendingSpsConnectionEvent i)
    (pBtDataCallback i) (pBtDataAvailableCallback i)
    (pBtDataCallbackParameter i).

Definition setBtDataAvailableCallback (cb param : option positive)
    (i : uShortRangePrivateInstance_t) : uShortRangePrivateInstance_t :=
  ShortRangeInstance (atHandle i) (streamHandle i)
    (pSpsConnectionCallback i) (pSpsConnectionCallbackParameter i)
    (pPendingSpsConnectionEvent i)
    (pBtDataCallback i) cb param.

(** ** The event correlator *)

(** [spsEventCallback]; [malloc] is handed on to [createSpsChannel].  A
    [pParameter] that points at no record is left alone. *)
Definition spsEventCallback (malloc : bool) (pParameter : option positive)
    (s : State) : State :=
  match pParameter with
  | None => s
  | Some p =>
      match heap s !! p with
      | None => s
      | Some pStatus =>
          let s1 :=
            match pCallback pStatus with
            | None => s
            | Some f =>
                let sa :=
                  if bool_decide (type pStatus = U_SHORT_RANGE_EVENT_CONNECTED)
                  then withChannelList
                         (createSpsChannel malloc (statusInstance pStatus)
                            (dataChannel pStatus)) s
                  else s in
                let sb :=
                  emit (callSpsConnectionCallback f (connHandle pStatus)
                          (address pStatus) (type pStatus)
                          (dataChannel pStatus) (mtu pStatus)
                          (pCallbackParameter pStatus) (gpChannelList sa))
                       sa in
                if bool_decide (type pStatus = U_SHORT_RANGE_EVENT_DISCONNECTED)
                then withChannelList
                       (deleteSpsChannel (statusInstance pStatus)
                          (dataChannel pStatus)) sb
                else sb
            end in
          let s2 :=
            match statusInstance pStatus with
            | Some pInst => withInstance pInst (setPending None) s1
            | None => s1
            end in
          withHeap (delete p) s2
      end
  end.

(** The start of both correlator callbacks: take the pending record, or
    allocate one.  [malloc] is what the allocator returns if it is called:
    [None] for [NULL], else the address and the indeterminate contents of
    the block.  The result is [pStatus], [send] and the new state. *)
Definition pendingOrMalloc
    (malloc : option (positive * uBleDataSpsConnection_t))
    (pending : option positive) (s : State)
  : option positive * bool * State :=
  match pending with
  | Some p => (Some p, true, s)
  | None =>
      match malloc with
      | Some (p, junk) => (Some p, false, withHeap <[p := junk]> s)
      | None => (None, false, s)
      end
  end.

(** [btEdmConnectionCallback]; [type] and [channel] are the [uint32_t]
    arguments. *)
Definition btEdmConnectionCallback
    (malloc : option (positive * uBleDataSpsConnection_t))
    (streamHandle_ : Z) (type_ channel_ : Z) (ble : bool) (mtu_ : Z)
    (address_ : list byte) (pParam : option positive) (s : State) : State :=
  match pParam with
  | None => s
  | Some pInst =>
      let inst := instances s pInst in
      match atHandle inst with
      | None => s
      | Some at_ =>
          let '(pStatus, send, s1) :=
            pendingOrMalloc malloc (pPendingSpsConnectionEvent inst) s in
          let s2 :=
            match pStatus with
            | Some p =>
                withHeap (alter (λ st,
                  {| statusInstance := Some pInst;
                     connHandle := connHandle st;
                     type := to_int32 type_;
                     address := addrArrayToString address_;
                     dataChannel := to_int32 channel_;
                     mtu := mtu_;
                     pCallback := pSpsConnectionCallback inst;
                     pCallbackParameter :=
                       pSpsConnectionCallbackParameter inst |}) p) s1
            | None => s1
            end in
          if send then emit (uAtClientCallback (Some at_) pStatus) s2
          else withInstance pInst (setPending pStatus) s2
      end
  end.

(** [atConnectionEvent]; [pParameter] is the instance the callback was
    registered with, which the source dereferences unchecked. *)
Definition atConnectionEvent
    (malloc : option (positive * uBleDataSpsConnection_t))
    (connHandle_ type_ : Z) (pParameter : positive) (s : State) : State :=
  let inst := instances s pParameter in
  match pSpsConnectionCallback inst with
  | None => s
  | Some _ =>
      let '(pStatus, send, s1) :=
        pendingOrMalloc malloc (pPendingSpsConnectionEvent inst) s in
      match pStatus with
      | None => s1
      | Some p =>
          let s2 :=
            withHeap (alter (λ st,
              {| statusInstance := statusInstance st;
                 connHandle := connHandle_;
                 type := type st;
                 address := address st;
                 dataChannel := dataChannel st;
                 mtu := mtu st;
                 pCallback := pCallback st;
                 pCallbackParameter := pCallbackParameter st |}) p) s1 in
          if send then emit (uAtClientCallback (atHandle inst) pStatus) s2
          else withInstance pParameter (setPending pStatus) s2
      end
  end.

(** ** The receive path *)

(** [dataCallback]; [pData] is the block of [length] bytes. *)
Definition dataCallback (handle chan : Z) (pData : list byte)
    (pParameters : option positive) (s : State) : State :=
  match pParameters with
  | None => s
  | Some pInst =>
      let inst := instances s pInst in
      match pBtDataCallback inst with
      | Some f =>
          emit (callBtDataCallback f chan pData
                  (pBtDataCallbackParameter inst)) s
      | None =>
          match pBtDataAvailableCallback inst with
          | None => s
          | Some _ =>
              match getSpsChannel (Some pInst) chan (gpChannelList s) with
              | None => s
              | Some (i, pChannel) =>
                  let bufferWasEmtpy :=
                    bool_decide
                      (ringBufferDataSize (rxRingBuffer pChannel) = 0%nat) in
                  let added := ringBufferAdd (rxRingBuffer pChannel) pData in
                  let s1 :=
                    withChannelList
                      <[i := SpsChannel (channel pChannel)
                               (pInstance pChannel) added.2
                               (txTimeout pChannel)]> s in
                  if bufferWasEmtpy
                  then emit (uPortEventQueueSend (gBleDataEventQueue s)
                               (BleDataEvent chan pInst)) s1
                  else s1
              end
          end
      end
  end.

(** [onBleDataEvent], run by the event queue on a record it was sent. *)
Definition onBleDataEvent (pEvent : bleDataEvent_t) (s : State) : State :=
  let inst := instances s (eventInstance pEvent) in
  match pBtDataAvailableCallback inst with
  | Some f =>
      emit (callBtDataAvailableCallback f (eventChannel pEvent)
              (pBtDataCallbackParameter inst) (gpChannelList s)) s
  | None => s
  end.

(** ** Public functions *)

(** What a function that reads through a pointer comes to when the
    pointer is [NULL]. *)
Inductive outcome (A : Type) :=
| Returns (a : A)
| NullDereference.
Global Arguments Returns {A} a.
Global Arguments NullDereference {A}.

(** [uBleDataReceive]: the value returned, the bytes copied to [pData],
    and the new state. *)
Definition uBleDataReceive (bleHandle chan : Z) (length_ : Z) (s : State)
  : Z * list byte * State :=
  match pUShortRangePrivateGetInstance bleHandle with
  | None => (U_ERROR_COMMON_INVALID_PARAMETER, [], s)
  | Some pInst =>
      match getSpsChannel (Some pInst) chan (gpChannelList s) with
      | None => (U_ERROR_COMMON_INVALID_PARAMETER, [], s)
      | Some (i, pChannel) =>
          let read := ringBufferRead (rxRingBuffer pChannel) length_ in
          (to_int32 (Z.of_nat (length read.1)), read.1,
           withChannelList
             <[i := SpsChannel (channel pChannel) (pInstance pChannel)
                      read.2 (txTimeout pChannel)]> s)
      end
  end.

(** [uBleDataSend]; [lock] is what [uShortRangeLock] returns and [write]
    what [uShortRangeEdmStreamWrite] returns. *)
Definition uBleDataSend (lock write : Z) (bleHandle chan : Z)
    (pData : list byte) (s : State) : outcome (Z * State) :=
  if bool_decide (lock = U_ERROR_COMMON_SUCCESS) then
    match pUShortRangePrivateGetInstance bleHandle with
    | None => Returns (U_ERROR_COMMON_INVALID_PARAMETER, s)
    | Some pInst =>
        match getSpsChannel (Some pInst) chan (gpChannelList s) with
        | None => NullDereference
        | Some (_, pChannel) =>
            Returns
              (write,
               emit (uShortRangeEdmStreamWrite
                       (streamHandle (instances s pInst)) chan pData
                       (txTimeout pChannel)) s)
        end
    end
  else Returns (U_ERROR_COMMON_NOT_INITIALISED, s).

(** One link of the chain of registrations in
    [uBleDataSetCallbackConnectionStatus]: the call is made only while
    [errorCode] is still success, and its result replaces [errorCode]. *)
Definition ifSuccess (result : Z) (e : effect) (acc : Z * State)
  : Z * State :=
  if bool_decide (acc.1 = U_ERROR_COMMON_SUCCESS)
  then (result, emit e acc.2)
  else acc.

(** The [cleanUp] block of [uBleDataSetCallbackConnectionStatus]. *)
Definition cleanUpConnectionStatus (bleHandle : Z) (pInst : positive)
    (s : State) : State :=
  let inst := instances s pInst in
  let s1 := emit (uAtClientRemoveUrcHandler (atHandle inst) UUBTACLC) s in
  let s2 := emit (uAtClientRemoveUrcHandler (atHandle inst) UUBTACLD) s1 in
  let s3 := emit (uShortRangeConnectionStatusCallback bleHandle false None)
                 s2 in
  let s4 := emit (uShortRangeEdmStreamBtEventCallbackSet
                    (streamHandle inst) false None) s3 in
  withInstance pInst (setSpsConnectionCallback None None) s4.

(** What the collaborators return to
    [uBleDataSetCallbackConnectionStatus], in call order. *)
Record connectionStatusResults := ConnectionStatusResults {
  uShortRangeLock_result : Z;
  setUrcHandler_UUBTACLC_result : Z;
  setUrcHandler_UUBTACLD_result : Z;
  connectionStatusCallback_result : Z;
  btEventCallbackSet_result : Z;
}.

(** [uBleDataSetCallbackConnectionStatus]. *)
Definition uBleDataSetCallbackConnectionStatus (r : connectionStatusResults)
    (bleHandle : Z) (pCallback_ pCallbackParameter_ : option positive)
    (s : State) : Z * State :=
  if bool_decide (uShortRangeLock_result r = U_ERROR_COMMON_SUCCESS) then
    match pUShortRangePrivateGetInstance bleHandle with
    | None => (U_ERROR_COMMON_INVALID_PARAMETER, s)
    | Some pInst =>
        let inst := instances s pInst in
        match pCallback_, pSpsConnectionCallback inst with
        | Some _, None =>
            let s1 :=
              withInstance pInst
                (setSpsConnectionCallback pCallback_ pCallbackParameter_) s in
            let a1 :=
              (setUrcHandler_UUBTACLC_result r,
               emit (uAtClientSetUrcHandler (atHandle inst) UUBTACLC) s1) in
            let a2 :=
              ifSuccess (setUrcHandler_UUBTACLD_result r)
                (uAtClientSetUrcHandler (atHandle inst) UUBTACLD) a1 in
            let a3 :=
              ifSuccess (connectionStatusCallback_result r)
                (uShortRangeConnectionStatusCallback bleHandle true
                   (Some pInst)) a2 in
            let a4 :=
              ifSuccess (btEventCallbackSet_result r)
                (uShortRangeEdmStreamBtEventCallbackSet (streamHandle inst)
                   true (Some pInst)) a3 in
            if bool_decide (a4.1 ≠ U_ERROR_COMMON_SUCCESS)
            then (a4.1, cleanUpConnectionStatus bleHandle pInst a4.2)
            else a4
        | None, Some _ =>
            (U_ERROR_COMMON_SUCCESS,
             cleanUpConnectionStatus bleHandle pInst s)
        | _, _ => (U_ERROR_COMMON_INVALID_PARAMETER, s)
        end
    end
  else (U_ERROR_COMMON_NOT_INITIALISED, s).

(** [uBleDataSetDataAvailableCallback]; [lock], [opened] and [hooked] are
    what [uShortRangeLock], [uPortEventQueueOpen] and
    [uShortRangeEdmStreamDataEventCallbackSet] return. *)
Definition uBleDataSetDataAvailableCallback (lock opened hooked : Z)
    (bleHandle : Z) (pCallback_ pCallbackParameter_ : option positive)
    (s : State) : Z * State :=
  if bool_decide (lock = U_ERROR_COMMON_SUCCESS) then
    match pUShortRangePrivateGetInstance bleHandle with
    | None => (U_ERROR_COMMON_INVALID_PARAMETER, s)
    | Some pInst =>
        let inst := instances s pInst in
        match pBtDataAvailableCallback inst, pCallback_ with
        | None, Some _ =>
            let s1 :=
              withInstance pInst
                (setBtDataAvailableCallback pCallback_ pCallbackParameter_)
                s in
            let s2 :=
              if bool_decide
                   (gBleDataEventQueue s1 = U_ERROR_COMMON_NOT_INITIALISED)
              then withEventQueue
                     (if bool_decide (opened < 0)
                      then U_ERROR_COMMON_NOT_INITIALISED else opened)
                     (emit uPortEventQueueOpen s1)
              else s1 in
            (hooked,
             emit (uShortRangeEdmStreamDataEventCallbackSet
                     (streamHandle inst) true (Some pInst)) s2)
        | Some _, None =>
            let s1 :=
              withInstance pInst (setBtDataAvailableCallback None None) s in
            let s2 :=
              emit (uShortRangeEdmStreamDataEventCallbackSet
                      (streamHandle inst) false None) s1 in
            (hooked,
             if bool_decide
                  (gBleDataEventQueue s2 ≠ U_ERROR_COMMON_NOT_INITIALISED)
             then withEventQueue U_ERROR_COMMON_NOT_INITIALISED
                    (emit (uPortEventQueueClose (gBleDataEventQueue s2)) s2)
             else s2)
        | _, _ => (U_ERROR_COMMON_INVALID_PARAMETER, s)
        end
    end
  else (U_ERROR_COMMON_NOT_INITIALISED, s).

End State.

(** ** Inputs to evaluate the functions on

    One instance, at address 1 (handle 1 on [smallPlatform]), with AT handle
    9 and stream handle 4.  User functions are at the addresses 5
    (connection status) and 6 (data available).  Connection records are
    allocated at address 7. *)

Definition idleInstance : uShortRangePrivateInstance_t :=
  ShortRangeInstance (Some 9%positive) 4 None None None None None None.

Definition listeningInstance : uShortRangePrivateInstance_t :=
  ShortRangeInstance (Some 9%positive) 4 (Some 5%positive) None None None
    (Some 6%positive) None.

(** A channel of instance 1 over the buffer [rb], send timeout 100. *)
Definition channelHolding `{RingBuffer} (chan : Z) (rb : ringBuffer_t)
  : uBleDataSpsChannel_t :=
  SpsChannel chan (Some 1%positive) rb 100.

Definition stateOf `{RingBuffer} (inst : uShortRangePrivateInstance_t)
    (records : gmap positive uBleDataSpsConnection_t)
    (channels : list uBleDataSpsChannel_t) : State :=
  mkState (λ _, inst) records channels (-2) [].

(** The same over the two ring buffers, with four bytes of capacity and
    [held] in the buffer. *)
Definition specChannel (chan : Z) (held : list byte)
  : @uBleDataSpsChannel_t specRingBuffer :=
  channelHolding (H := specRingBuffer) chan (SpecBuffer 4 held).


(** What a block fresh from [malloc] may hold. *)
Definition junkRecord : uBleDataSpsConnection_t :=
  SpsConnection (Some 2%positive) 99 99 [x00] 99 99 (Some 3%positive)
    (Some 4%positive).

(** A completed event for channel [chan] of instance 1, of kind [kind]:
    connection handle 7, mtu 240, address AA:BB, callback 5. *)
Definition completedRecord (kind chan : Z) : uBleDataSpsConnection_t :=
  SpsConnection (Some 1%positive) 7 kind [xaa; xbb] chan 240
    (Some 5%positive) None.

(** ** The rest of the public functions *)

(** Further constants of [u_error_common.h] and [u_short_range.h], which
    the functions below compare against or return. *)
Class PlatformModes := {
  U_ERROR_COMMON_UNKNOWN : Z;
  U_SHORT_RANGE_ERROR_INVALID_MODE : Z;
  U_SHORT_RANGE_MODE_COMMAND : Z;
  U_SHORT_RANGE_MODE_EDM : Z;
}.

(** The AT commands the file starts, ["AT+UDCP="] and ["AT+UDCPC="]. *)
Inductive atCommand := AT_UDCP | AT_UDCPC.

(** Calls to the AT client made by [uBleDataConnectSps] and
    [uBleDataDisconnect], all on [pInstance->atHandle].
    [uAtClientWriteString] is recorded with the contents of the buffer it
    is handed; [uAtClientResponseStart] is always for ["+UDCP:"]. *)
Inductive atCall :=
| uAtClientLock
| uAtClientCommandStart (command : atCommand)
| uAtClientWriteString (buffer : list byte)
| uAtClientWriteInt (value : Z)
| uAtClientCommandStop
| uAtClientCommandStopReadResponse
| uAtClientResponseStart
| uAtClientReadInt
| uAtClientResponseStop
| uAtClientUnlock.

(** [memcpy (dst + offset, src, n)] on the contents of [dst]. *)
Definition memcpy (dst : list byte) (offset : nat) (src : list byte)
    (n : nat) : list byte :=
  take offset dst ++ take n src ++ drop (offset + n) dst.

(** The bytes of a C string: those in front of the first NUL. *)
Fixpoint cString (buffer : list byte) : list byte :=
  match buffer with
  | [] => []
  | b :: rest => if Byte.eqb b x00 then [] else b :: cString rest
  end.

(** [char start[] = "sps://"], with its terminator. *)
Definition spsScheme : list byte := [x73; x70; x73; x3a; x2f; x2f; x00].

(** The buffer [url] of [uBleDataConnectSps] once it is filled; [pAddress]
    stands for the bytes at that address, of which 13 are read. *)
Definition connectUrl (pAddress : list byte) : list byte :=
  memcpy (memcpy (replicate 20 x00) 0 spsScheme 6) 6 pAddress 13.

Section MoreFunctions.
Context `{Platform} `{PlatformModes} `{RingBuffer}.

(** [uBleDataConnectSps]: the value returned and the AT client calls made.
    [lock] and [unlock] are what [uShortRangeLock] and [uAtClientUnlock]
    return; [mode] is the [mode] field of the instance, which is not among
    the fields kept in [uShortRangePrivateInstance_t] above. *)
Definition uBleDataConnectSps (lock unlock mode : Z) (bleHandle : Z)
    (pAddress : list byte) : Z * list atCall :=
  if bool_decide (lock = U_ERROR_COMMON_SUCCESS) then
    match pUShortRangePrivateGetInstance bleHandle with
    | None => (U_ERROR_COMMON_INVALID_PARAMETER, [])
    | Some _ =>
        if bool_decide (mode = U_SHORT_RANGE_MODE_COMMAND)
           || bool_decide (mode = U_SHORT_RANGE_MODE_EDM)
        then (unlock,
              [uAtClientLock; uAtClientCommandStart AT_UDCP;
               uAtClientWriteString (connectUrl pAddress);
               uAtClientCommandStop; uAtClientResponseStart;
               uAtClientReadInt; uAtClientResponseStop; uAtClientUnlock])
        else (U_SHORT_RANGE_ERROR_INVALID_MODE, [])
    end
  else (U_ERROR_COMMON_NOT_INITIALISED, []).

(** [uBleDataDisconnect]. *)
Definition uBleDataDisconnect (lock unlock : Z) (bleHandle connHandle_ : Z)
  : Z * list atCall :=
  if bool_decide (lock = U_ERROR_COMMON_SUCCESS) then
    match pUShortRangePrivateGetInstance bleHandle with
    | None => (U_ERROR_COMMON_INVALID_PARAMETER, [])
    | Some _ =>
        (unlock,
         [uAtClientLock; uAtClientCommandStart AT_UDCPC;
          uAtClientWriteInt connHandle_; uAtClientCommandStopReadResponse;
          uAtClientUnlock])
    end
  else (U_ERROR_COMMON_NOT_INITIALISED, []).

(** [uBleDataSetSendTimeout]; [lock] is what [uShortRangeLock] returns. *)
Definition uBleDataSetSendTimeout (lock : Z) (bleHandle chan timeout : Z)
    (s : State) : Z * State :=
  if bool_decide (lock = U_ERROR_COMMON_SUCCESS) then
    match pUShortRangePrivateGetInstance bleHandle with
    | None => (U_ERROR_COMMON_UNKNOWN, s)
    | Some pInst =>
        match getSpsChannel (Some pInst) chan (gpChannelList s) with
        | None => (U_ERROR_COMMON_UNKNOWN, s)
        | Some (i, pChannel) =>
            (U_ERROR_COMMON_SUCCESS,
             withChannelList
               <[i := SpsChannel (channel pChannel) (pInstance pChannel)
                        (rxRingBuffer pChannel) timeout]> s)
        end
    end
  else (U_ERROR_COMMON_UNKNOWN, s).

(** The assignment of [pBtDataCallback] and [pBtDataCallbackParameter]. *)
Definition setBtDataCallback (cb param : option positive)
    (i : uShortRangePrivateInstance_t) : uShortRangePrivateInstance_t :=
  ShortRangeInstance (atHandle i) (streamHandle i)
    (pSpsConnectionCallback i) (pSpsConnectionCallbackParameter i)
    (pPendingSpsConnectionEvent i)
    cb (pBtDataAvailableCallback i) param.

(** [uBleDataSetCallbackData] (deprecated); [lock] and [hooked] are what
    [uShortRangeLock] and [uShortRangeEdmStreamDataEventCallbackSet]
    return.  The hook is set for type 0 here. *)
Definition uBleDataSetCallbackData (lock hooked : Z) (bleHandle : Z)
    (pCallback_ pCallbackParameter_ : option positive) (s : State)
  : Z * State :=
  if bool_decide (lock = U_ERROR_COMMON_SUCCESS) then
    match pUShortRangePrivateGetInstance bleHandle with
    | None => (U_ERROR_COMMON_INVALID_PARAMETER, s)
    | Some pInst =>
        let inst := instances s pInst in
        match pBtDataCallback inst, pCallback_ with
        | None, Some _ =>
            (hooked,
             emit (uShortRangeEdmStreamDataEventCallbackSet
                     (streamHandle inst) true (Some pInst))
                  (withInstance pInst
                     (setBtDataCallback pCallback_ pCallbackParameter_) s))
        | Some _, None =>
            (hooked,
             emit (uShortRangeEdmStreamDataEventCallbackSet
                     (streamHandle inst) false None)
                  (withInstance pInst (setBtDataCallback None None) s))
        | _, _ => (U_ERROR_COMMON_INVALID_PARAMETER, s)
        end
    end
  else (U_ERROR_COMMON_NOT_INITIALISED, s).

(** [uBleDataPrivateDeinit], up to the mutex. *)
Definition uBleDataPrivateDeinit (s : State) : State :=
  let s1 :=
    if bool_decide (gBleDataEventQueue s ≠ U_ERROR_COMMON_NOT_INITIALISED)
    then withEventQueue U_ERROR_COMMON_NOT_INITIALISED
           (emit (uPortEventQueueClose (gBleDataEventQueue s)) s)
    else s in
  withChannelList deleteAllSpsChannels s1.

End MoreFunctions.

(** The pair that [getSpsChannel] and [deleteSpsChannel] compare. *)
Definition channelKey `{RingBuffer} (c : uBleDataSpsChannel_t)
  : option positive * Z :=
  (pInstance c, channel c).

(** Example values for [PlatformModes]. *)
Definition smallModes : PlatformModes :=
  {| U_ERROR_COMMON_UNKNOWN := -1;
     U_SHORT_RANGE_ERROR_INVALID_MODE := -4097;
     U_SHORT_RANGE_MODE_COMMAND := 0;
     U_SHORT_RANGE_MODE_EDM := 2 |}.

(** How many nodes of the list [getSpsChannel] and [deleteSpsChannel] would
    take for the channel [(pInst, chan)]. *)
Definition channelCount `{RingBuffer} (pInst : option positive) (chan : Z)
    (l : list uBleDataSpsChannel_t) : nat :=
  length (List.filter (isSpsChannel pInst chan) l).

(** Unfolding of the state updates. *)
Ltac state_simpl :=
  unfold pendingOrMalloc, withInstance, withHeap, withChannelList,
    withEventQueue, emit;
  cbn [instances heap gpChannelList gBleDataEventQueue trace
       atHandle streamHandle pSpsConnectionCallback
       pSpsConnectionCallbackParameter pPendingSpsConnectionEvent
       pBtDataCallback pBtDataAvailableCallback pBtDataCallbackParameter
       setPending setSpsConnectionCallback setBtDataAvailableCallback
       fst snd];
  rewrite ?fn_lookup_insert;
  cbn [atHandle streamHandle pSpsConnectionCallback
       pSpsConnectionCallbackParameter pPendingSpsConnectionEvent
       pBtDataCallback pBtDataAvailableCallback pBtDataCallbackParameter
       setPending setSpsConnectionCallback setBtDataAvailableCallback].

(** * Properties *)

(** ** Integers *)

Lemma to_int32_small (x : Z) : 0 ≤ x < 2 ^ 31 → to_int32 x = x.
Proof.
  intros Hx. unfold to_int32.
  rewrite Z.mod_small; lia.
Qed.

(** ** The channel registry *)

Section RegistryFacts.
Context `{Pf : Platform} `{Rb : RingBuffer}.

Implicit Types (l : list uBleDataSpsChannel_t) (pInst : option positive).

Lemma countToLast_length l n :
  0 ≤ n → n + Z.of_nat (length l) < 2 ^ 32 →
  countToLast l n = n + Z.of_nat (length l).
Proof.
  revert n. induction l as [|c l IH]; intros n Hn Hlt; simpl in *.
  - lia.
  - unfold uint32_incr. rewrite Z.mod_small by lia.
    rewrite IH; lia.
Qed.

Lemma createSpsChannel_full malloc pInst chan l :
  1 ≤ U_BLE_DATA_MAX_CONNECTIONS < 2 ^ 32 →
  Z.of_nat (length l) = U_BLE_DATA_MAX_CONNECTIONS →
  createSpsChannel malloc pInst chan l = l.
Proof.
  intros Hmax Hlen. destruct l as [|c l]; simpl in *; [lia|].
  rewrite countToLast_length by lia.
  rewrite bool_decide_eq_false_2 by lia. done.
Qed.

Lemma createSpsChannel_room pInst chan l :
  U_BLE_DATA_MAX_CONNECTIONS < 2 ^ 32 →
  Z.of_nat (length l) < U_BLE_DATA_MAX_CONNECTIONS →
  createSpsChannel true pInst chan l = l ++ [initSpsChannel pInst chan].
Proof.
  intros Hmax Hlen. destruct l as [|c l]; simpl in *; [done|].
  rewrite countToLast_length by lia.
  rewrite bool_decide_eq_true_2 by lia. done.
Qed.

Lemma createSpsChannel_no_memory pInst chan l :
  createSpsChannel false pInst chan l = l.
Proof.
  destruct l as [|c l]; simpl; [done|].
  by rewrite andb_false_r.
Qed.

Lemma createSpsChannel_length malloc pInst chan l :
  1 ≤ U_BLE_DATA_MAX_CONNECTIONS < 2 ^ 32 →
  Z.of_nat (length l) ≤ U_BLE_DATA_MAX_CONNECTIONS →
  Z.of_nat (length (createSpsChannel malloc pInst chan l))
    ≤ U_BLE_DATA_MAX_CONNECTIONS.
Proof.
  intros Hmax Hlen. destruct malloc.
  - destruct (decide (Z.of_nat (length l) = U_BLE_DATA_MAX_CONNECTIONS)).
    + by rewrite createSpsChannel_full.
    + rewrite createSpsChannel_room by lia.
      rewrite length_app. simpl. lia.
  - by rewrite createSpsChannel_no_memory.
Qed.

(** C6. With [U_BLE_DATA_MAX_CONNECTIONS] channels in the registry
    [createSpsChannel] leaves the registry as it is; with fewer, and memory
    for the node, it adds exactly one channel, last in the list, with a
    ring buffer fresh from [ringBufferCreate] over the whole of [pRxBuffer]
    and the default send timeout; so a registry within the maximum stays
    within it. *)
Theorem createSpsChannel_bounded (malloc : bool) pInst (chan : Z) l :
  1 ≤ U_BLE_DATA_MAX_CONNECTIONS < 2 ^ 32 →
  Z.of_nat (length l) ≤ U_BLE_DATA_MAX_CONNECTIONS →
  (Z.of_nat (length l) = U_BLE_DATA_MAX_CONNECTIONS →
     createSpsChannel malloc pInst chan l = l)
  ∧ (Z.of_nat (length l) ≠ U_BLE_DATA_MAX_CONNECTIONS →
     createSpsChannel true pInst chan l
     = l ++ [SpsChannel chan pInst (ringBufferCreate U_BLE_DATA_BUFFER_SIZE)
               U_BLE_DATA_DEFAULT_SEND_TIMEOUT_MS])
  ∧ Z.of_nat (length (createSpsChannel malloc pInst chan l))
      ≤ U_BLE_DATA_MAX_CONNECTIONS.
Proof.
  intros Hmax Hlen. split; [|split].
  - intros Heq. by apply createSpsChannel_full.
  - intros Hne. apply createSpsChannel_room; lia.
  - by apply createSpsChannel_length.
Qed.

(** *** Lookup and deletion *)

Lemma getSpsChannel_Some pInst chan l i c :
  getSpsChannel pInst chan l = Some (i, c) →
  l !! i = Some c ∧ isSpsChannel pInst chan c = true.
Proof.
  revert i. induction l as [|d l IH]; intros i; simpl; [done|].
  destruct (isSpsChannel pInst chan d) eqn:Hd.
  - intros [= <- <-]. done.
  - destruct (getSpsChannel pInst chan l) as [[j e]|] eqn:Hget; simpl; [|done].
    intros [= <- <-]. simpl. by apply IH.
Qed.

Lemma getSpsChannel_None pInst chan l :
  getSpsChannel pInst chan l = None ↔ channelCount pInst chan l = 0%nat.
Proof.
  unfold channelCount. induction l as [|d l IH]; simpl; [done|].
  destruct (isSpsChannel pInst chan d) eqn:Hd; simpl; [done|].
  destruct (getSpsChannel pInst chan l) as [[j e]|]; simpl.
  - split; [done|]. intros Hz. by apply IH in Hz.
  - split; [|done]. intros _. by apply IH.
Qed.

Lemma getSpsChannel_is_Some pInst chan l :
  is_Some (getSpsChannel pInst chan l) ↔ (0 < channelCount pInst chan l)%nat.
Proof.
  rewrite <- not_eq_None_Some, getSpsChannel_None. lia.
Qed.

Lemma channelCount_app pInst chan l1 l2 :
  channelCount pInst chan (l1 ++ l2)
  = (channelCount pInst chan l1 + channelCount pInst chan l2)%nat.
Proof.
  unfold channelCount. by rewrite List.filter_app, length_app.
Qed.

Lemma unlinkSpsChannel_count pInst chan l :
  channelCount pInst chan (unlinkSpsChannel pInst chan l)
  = Nat.pred (channelCount pInst chan l).
Proof.
  unfold channelCount. induction l as [|d l IH]; simpl; [done|].
  destruct (isSpsChannel pInst chan d) eqn:Hd; simpl; [done|].
  by rewrite Hd.
Qed.

Lemma deleteSpsChannel_count pInst chan l :
  (channelCount pInst chan l ≤ 1)%nat →
  channelCount pInst chan (deleteSpsChannel pInst chan l) = 0%nat.
Proof.
  destruct l as [|d l]; simpl; [done|].
  unfold channelCount at 1. simpl.
  destruct (isSpsChannel pInst chan d) eqn:Hd; simpl; [done|].
  intros Hle. unfold channelCount. simpl. rewrite Hd.
  fold (channelCount pInst chan (unlinkSpsChannel pInst chan l)).
  rewrite unlinkSpsChannel_count. unfold channelCount. lia.
Qed.

(** When the head of the list is the channel to delete, the whole list is
    dropped, whatever follows the head. *)
Lemma deleteSpsChannel_head pInst chan c l :
  isSpsChannel pInst chan c = true →
  deleteSpsChannel pInst chan (c :: l) = [].
Proof. intros Hc. simpl. by rewrite Hc. Qed.

(** When the head is another channel, deletion unlinks the first match and
    every other channel is found as before. *)
Lemma unlinkSpsChannel_other pInst chan pInst' chan' l :
  (pInst', chan') ≠ (pInst, chan) →
  snd <$> getSpsChannel pInst' chan' (unlinkSpsChannel pInst chan l)
  = snd <$> getSpsChannel pInst' chan' l.
Proof.
  intros Hne. induction l as [|d l IH]; simpl; [done|].
  destruct (isSpsChannel pInst chan d) eqn:Hd; simpl.
  - destruct (isSpsChannel pInst' chan' d) eqn:Hd'.
    + exfalso. apply Hne. unfold isSpsChannel in *.
      apply andb_prop in Hd as [?%bool_decide_eq_true ?%bool_decide_eq_true].
      apply andb_prop in Hd' as [?%bool_decide_eq_true ?%bool_decide_eq_true].
      congruence.
    + by destruct (getSpsChannel pInst' chan' l) as [[??]|].
  - destruct (isSpsChannel pInst' chan' d); [done|].
    destruct (getSpsChannel pInst' chan' l) as [[??]|],
      (getSpsChannel pInst' chan' (unlinkSpsChannel pInst chan l)) as [[??]|];
      simpl in *; congruence.
Qed.

Lemma deleteSpsChannel_other pInst chan pInst' chan' c l :
  isSpsChannel pInst chan c = false →
  (pInst', chan') ≠ (pInst, chan) →
  snd <$> getSpsChannel pInst' chan' (deleteSpsChannel pInst chan (c :: l))
  = snd <$> getSpsChannel pInst' chan' (c :: l).
Proof.
  intros Hc Hne. simpl. rewrite Hc. simpl.
  destruct (isSpsChannel pInst' chan' c); [done|].
  pose proof (unlinkSpsChannel_other pInst chan pInst' chan' l Hne) as Hu.
  destruct (getSpsChannel pInst' chan' l) as [[??]|],
    (getSpsChannel pInst' chan' (unlinkSpsChannel pInst chan l)) as [[??]|];
    simpl in *; congruence.
Qed.

End RegistryFacts.

(** ** The event correlator *)

Section CorrelatorFacts.
Context `{Pf : Platform} `{Rb : RingBuffer}.

Implicit Types (s : State) (p pInst : positive).

Lemma instances_withInstance s pInst f :
  instances (withInstance pInst f s) pInst = f (instances s pInst).
Proof. simpl. apply fn_lookup_insert. Qed.

(** The correlator from an empty pending slot, on an instance that has an
    AT handle and a connection callback, with memory for the record:
    whichever of [btEdmConnectionCallback] and [atConnectionEvent] comes
    first schedules nothing, and the one that comes second makes exactly one
    call of [uAtClientCallback] for [spsEventCallback], on a record that
    holds the connection handle of the command side and the kind, channel,
    mtu and address of the transport side, whatever the allocated block
    contained.  The slot is empty again only once [spsEventCallback] has
    run. *)
Theorem correlator_either_order s pInst (at_ cb p : positive)
    (junk : uBleDataSpsConnection_t)
    (m : option (positive * uBleDataSpsConnection_t))
    (conn atType kind chan mtu_ stream : Z) (ble : bool) (addr : list byte) :
  atHandle (instances s pInst) = Some at_ →
  pSpsConnectionCallback (instances s pInst) = Some cb →
  pPendingSpsConnectionEvent (instances s pInst) = None →
  0 ≤ kind < 2 ^ 31 →
  0 ≤ chan < 2 ^ 31 →
  let merged :=
    {| statusInstance := Some pInst;
       connHandle := conn;
       type := kind;
       address := addrArrayToString addr;
       dataChannel := chan;
       mtu := mtu_;
       pCallback := Some cb;
       pCallbackParameter :=
         pSpsConnectionCallbackParameter (instances s pInst) |} in
  let transport m s :=
    btEdmConnectionCallback m stream kind chan ble mtu_ addr (Some pInst) s in
  let command m s := atConnectionEvent m conn atType pInst s in
  let scheduled := trace s ++ [uAtClientCallback (Some at_) (Some p)] in
  (trace (transport (Some (p, junk)) s) = trace s
   ∧ trace (command m (transport (Some (p, junk)) s)) = scheduled
   ∧ heap (command m (transport (Some (p, junk)) s)) !! p = Some merged)
  ∧ (trace (command (Some (p, junk)) s) = trace s
     ∧ trace (transport m (command (Some (p, junk)) s)) = scheduled
     ∧ heap (transport m (command (Some (p, junk)) s)) !! p = Some merged).
Proof.
  intros Hat Hcb Hpend Hkind Hchan merged transport command scheduled.
  subst merged transport command scheduled.
  unfold btEdmConnectionCallback, atConnectionEvent.
  split.
  - rewrite Hat, Hpend. state_simpl. rewrite Hcb, Hat. state_simpl.
    repeat split.
    rewrite !lookup_alter_eq, lookup_insert_eq. simpl.
    by rewrite !to_int32_small.
  - rewrite Hcb, Hpend. state_simpl. rewrite Hat, Hcb. state_simpl.
    repeat split.
    rewrite !lookup_alter_eq, lookup_insert_eq. simpl.
    by rewrite !to_int32_small.
Qed.

(** Dispatch of a scheduled record: [spsEventCallback] calls the callback
    stored in the record once, with the fields of the record, empties the
    pending slot of the instance and frees the record. *)
Lemma spsEventCallback_delivers (malloc : bool) s p
    (pStatus : uBleDataSpsConnection_t) (f : positive) :
  heap s !! p = Some pStatus →
  pCallback pStatus = Some f →
  let s' := spsEventCallback malloc (Some p) s in
  (∃ registry,
     trace s'
     = trace s ++
       [callSpsConnectionCallback f (connHandle pStatus) (address pStatus)
          (type pStatus) (dataChannel pStatus) (mtu pStatus)
          (pCallbackParameter pStatus) registry])
  ∧ heap s' !! p = None
  ∧ ∀ pInst, statusInstance pStatus = Some pInst →
      pPendingSpsConnectionEvent (instances s' pInst) = None.
Proof.
  intros Hp Hf s'. subst s'. unfold spsEventCallback. rewrite Hp, Hf.
  destruct (bool_decide (type pStatus = U_SHORT_RANGE_EVENT_CONNECTED)),
    (bool_decide (type pStatus = U_SHORT_RANGE_EVENT_DISCONNECTED)),
    (statusInstance pStatus) as [i|];
    state_simpl; rewrite lookup_delete_eq;
    (split; [by eexists|split; [done|]]);
    intros pInst [= <-] || intros pInst [=]; by rewrite fn_lookup_insert.
Qed.

Lemma isSpsChannel_init (pInst : option positive) (chan : Z) :
  isSpsChannel pInst chan (initSpsChannel pInst chan) = true.
Proof.
  unfold isSpsChannel, initSpsChannel. simpl.
  by rewrite !bool_decide_eq_true_2.
Qed.

(** The channel around the user callback.  [spsEventCallback] runs the
    user callback of a Connected event on a channel list that already holds
    the new channel, provided the registry had room and memory for it; it
    runs the callback of a Disconnected event, whose channel is in the
    registry once, on the channel list as it was, and the channel is gone
    when it returns. *)
Theorem spsEventCallback_channel_lifetime (malloc : bool) s p
    (pStatus : uBleDataSpsConnection_t) (f : positive) :
  heap s !! p = Some pStatus →
  pCallback pStatus = Some f →
  U_SHORT_RANGE_EVENT_CONNECTED ≠ U_SHORT_RANGE_EVENT_DISCONNECTED →
  U_BLE_DATA_MAX_CONNECTIONS < 2 ^ 32 →
  let pInst := statusInstance pStatus in
  let chan := dataChannel pStatus in
  let s' := spsEventCallback malloc (Some p) s in
  let called registry :=
    trace s ++ [callSpsConnectionCallback f (connHandle pStatus)
                  (address pStatus) (type pStatus) chan (mtu pStatus)
                  (pCallbackParameter pStatus) registry] in
  (type pStatus = U_SHORT_RANGE_EVENT_CONNECTED →
   malloc = true →
   Z.of_nat (length (gpChannelList s)) < U_BLE_DATA_MAX_CONNECTIONS →
   let registry := gpChannelList s ++ [initSpsChannel pInst chan] in
   trace s' = called registry
   ∧ is_Some (getSpsChannel pInst chan registry)
   ∧ gpChannelList s' = registry)
  ∧ (type pStatus = U_SHORT_RANGE_EVENT_DISCONNECTED →
     channelCount pInst chan (gpChannelList s) = 1%nat →
     trace s' = called (gpChannelList s)
     ∧ is_Some (getSpsChannel pInst chan (gpChannelList s))
     ∧ getSpsChannel pInst chan (gpChannelList s') = None).
Proof.
  intros Hp Hf Hne Hmax pInst chan s' called.
  subst s' called. unfold spsEventCallback. rewrite Hp, Hf.
  split.
  - intros Hty -> Hroom.
    set (registry := gpChannelList s ++ [initSpsChannel pInst chan]).
    rewrite !(bool_decide_eq_true_2 _ Hty).
    rewrite !(bool_decide_eq_false_2
                (type pStatus = U_SHORT_RANGE_EVENT_DISCONNECTED))
      by congruence.
    assert (createSpsChannel true pInst chan (gpChannelList s) = registry)
      as Hcreate by (by apply createSpsChannel_room).
    assert (is_Some (getSpsChannel pInst chan registry)) as Hfound.
    { apply getSpsChannel_is_Some. subst registry.
      rewrite channelCount_app. unfold channelCount at 2. simpl.
      rewrite isSpsChannel_init. simpl. lia. }
    destruct (statusInstance pStatus) as [i|] eqn:Hi;
      state_simpl; subst pInst chan; rewrite ?Hi, Hcreate; done.
  - intros Hty Hone.
    rewrite !(bool_decide_eq_true_2 _ Hty).
    rewrite !(bool_decide_eq_false_2
                (type pStatus = U_SHORT_RANGE_EVENT_CONNECTED))
      by congruence.
    assert (is_Some (getSpsChannel pInst chan (gpChannelList s))) as Hfound.
    { apply getSpsChannel_is_Some. lia. }
    assert (getSpsChannel pInst chan
              (deleteSpsChannel pInst chan (gpChannelList s)) = None) as Hgone.
    { apply getSpsChannel_None, deleteSpsChannel_count. lia. }
    destruct (statusInstance pStatus) as [i|] eqn:Hi;
      state_simpl; subst pInst chan; rewrite ?Hi; done.
Qed.

End CorrelatorFacts.

(** ** The receive path *)

Section ReceiveFacts.
Context `{Pf : Platform} `{Rb : RingBuffer}.

Implicit Types (s : State) (pInst : positive).

(** Writing through the pointer that [getSpsChannel] returned does not move
    the node: the same lookup finds it again, with its new contents. *)
Lemma getSpsChannel_update (oInst : option positive) (chan : Z)
    (l : list uBleDataSpsChannel_t) (i : nat) (c c' : uBleDataSpsChannel_t) :
  getSpsChannel oInst chan l = Some (i, c) →
  isSpsChannel oInst chan c' = true →
  getSpsChannel oInst chan (<[i := c']> l) = Some (i, c').
Proof.
  revert i. induction l as [|d l IH]; intros i; simpl; [done|].
  destruct (isSpsChannel oInst chan d) eqn:Hd.
  - intros [= <- <-] Hc'. simpl. by rewrite Hc'.
  - destruct (getSpsChannel oInst chan l) as [[j e]|] eqn:Hget; simpl; [|done].
    intros [= <- <-] Hc'. simpl. rewrite Hd.
    by rewrite (IH j eq_refl Hc').
Qed.

Lemma isSpsChannel_buffer (oInst : option positive) (chan : Z)
    (c : uBleDataSpsChannel_t) (rb : ringBuffer_t) :
  isSpsChannel oInst chan
    (SpsChannel (channel c) (pInstance c) rb (txTimeout c))
  = isSpsChannel oInst chan c.
Proof. done. Qed.

(** What [dataCallback] does once it has found the channel to buffer
    into. *)
Lemma dataCallback_buffered s (handle chan : Z) (pData : list byte) pInst
    (i : nat) (pChannel : uBleDataSpsChannel_t) :
  pBtDataCallback (instances s pInst) = None →
  is_Some (pBtDataAvailableCallback (instances s pInst)) →
  getSpsChannel (Some pInst) chan (gpChannelList s) = Some (i, pChannel) →
  let rb := (ringBufferAdd (rxRingBuffer pChannel) pData).2 in
  let pChannel' :=
    SpsChannel (channel pChannel) (pInstance pChannel) rb
      (txTimeout pChannel) in
  let s' := dataCallback handle chan pData (Some pInst) s in
  gpChannelList s' = <[i := pChannel']> (gpChannelList s)
  ∧ getSpsChannel (Some pInst) chan (gpChannelList s') = Some (i, pChannel')
  ∧ instances s' = instances s
  ∧ gBleDataEventQueue s' = gBleDataEventQueue s
  ∧ trace s'
    = trace s ++
      (if bool_decide (ringBufferDataSize (rxRingBuffer pChannel) = 0%nat)
       then [uPortEventQueueSend (gBleDataEventQueue s)
               (BleDataEvent chan pInst)]
       else []).
Proof.
  intros Hdata [f Hf] Hget rb pChannel' s'.
  assert (getSpsChannel (Some pInst) chan
            (<[i := pChannel']> (gpChannelList s)) = Some (i, pChannel'))
    as Hget'.
  { apply (getSpsChannel_update _ _ _ _ pChannel); [done|].
    subst pChannel'. rewrite isSpsChannel_buffer.
    by apply getSpsChannel_Some in Hget as [_ ?]. }
  subst s'. unfold dataCallback. rewrite Hdata, Hf, Hget.
  destruct (bool_decide (ringBufferDataSize (rxRingBuffer pChannel) = 0%nat));
    state_simpl; rewrite ?app_nil_r; done.
Qed.

(** C5, as amended.  Once [dataCallback] has found the channel to buffer
    into, it calls [uPortEventQueueSend] exactly when [ringBufferDataSize]
    was zero before the add, and then once, whatever the add stores; so of
    two blocks in a row for a channel whose buffer was empty and holds
    something after the first, only the first sends an event. *)
Theorem dataCallback_event_on_empty s (handle chan : Z)
    (pData pData2 : list byte) pInst (i : nat)
    (pChannel : uBleDataSpsChannel_t) :
  pBtDataCallback (instances s pInst) = None →
  is_Some (pBtDataAvailableCallback (instances s pInst)) →
  getSpsChannel (Some pInst) chan (gpChannelList s) = Some (i, pChannel) →
  let event :=
    uPortEventQueueSend (gBleDataEventQueue s) (BleDataEvent chan pInst) in
  let s1 := dataCallback handle chan pData (Some pInst) s in
  let s2 := dataCallback handle chan pData2 (Some pInst) s1 in
  (ringBufferDataSize (rxRingBuffer pChannel) = 0%nat →
     trace s1 = trace s ++ [event])
  ∧ (ringBufferDataSize (rxRingBuffer pChannel) ≠ 0%nat →
     trace s1 = trace s)
  ∧ (ringBufferDataSize (rxRingBuffer pChannel) = 0%nat →
     ringBufferDataSize (ringBufferAdd (rxRingBuffer pChannel) pData).2
       ≠ 0%nat →
     trace s2 = trace s ++ [event]).
Proof.
  intros Hdata Hav Hget event s1 s2.
  destruct (dataCallback_buffered s handle chan pData pInst i pChannel
              Hdata Hav Hget) as (Hl1 & Hget1 & Hi1 & Hq1 & Ht1).
  fold s1 in Hl1, Hget1, Hi1, Hq1, Ht1.
  split; [|split].
  - intros Hempty. rewrite Ht1. by rewrite bool_decide_eq_true_2.
  - intros Hfull. rewrite Ht1. rewrite bool_decide_eq_false_2 by done.
    by rewrite app_nil_r.
  - intros Hempty Hstored.
    destruct (dataCallback_buffered s1 handle chan pData2 pInst i _
                ltac:(by rewrite Hi1) ltac:(by rewrite Hi1) Hget1)
      as (_ & _ & _ & _ & Ht2).
    fold s2 in Ht2. rewrite Ht2, Ht1. simpl.
    rewrite bool_decide_eq_true_2 by done.
    rewrite bool_decide_eq_false_2 by done.
    by rewrite app_nil_r.
Qed.


End ReceiveFacts.

(** *** With the ring buffer of the specification *)

(** C4. With the ring buffer of section 4.3, once [dataCallback] has found
    the channel to buffer into, the buffer of that channel holds what it
    held, followed by as many bytes of the block as the remaining capacity
    takes, in order; the rest of the block is dropped, the capacity is
    unchanged, and no other node of the list is written. *)
Theorem dataCallback_appends_what_fits (s : @State specRingBuffer)
    (handle chan : Z) (pData : list byte) (pInst : positive) (i : nat)
    (pChannel : @uBleDataSpsChannel_t specRingBuffer) :
  pBtDataCallback (instances s pInst) = None →
  is_Some (pBtDataAvailableCallback (instances s pInst)) →
  getSpsChannel (Some pInst) chan (gpChannelList s) = Some (i, pChannel) →
  let held := stored (rxRingBuffer pChannel) in
  let room := (capacity (rxRingBuffer pChannel) - length held)%nat in
  let s' := dataCallback handle chan pData (Some pInst) s in
  ∃ pChannel',
    getSpsChannel (Some pInst) chan (gpChannelList s') = Some (i, pChannel')
    ∧ stored (rxRingBuffer pChannel') = held ++ take room pData
    ∧ capacity (rxRingBuffer pChannel') = capacity (rxRingBuffer pChannel)
    ∧ ∀ j, j ≠ i → gpChannelList s' !! j = gpChannelList s !! j.
Proof.
  intros Hdata Hav Hget held room s'.
  destruct (dataCallback_buffered s handle chan pData pInst i pChannel
              Hdata Hav Hget) as (Hl & Hget' & _).
  fold s' in Hl, Hget'.
  eexists. split; [exact Hget'|]. simpl. repeat split.
  intros j Hj. rewrite Hl. by apply list_lookup_insert_ne.
Qed.

(** ** Public functions *)

Section PublicFacts.
Context `{Pf : Platform} `{Rb : RingBuffer}.

Implicit Types (s : State) (pInst : positive).

(** [uBleDataSend] on a valid handle reads [pChannel->txTimeout] whether or
    not [getSpsChannel] found the channel. *)
Lemma uBleDataSend_unknown_channel s (lock write bleHandle chan : Z)
    (pData : list byte) pInst :
  lock = U_ERROR_COMMON_SUCCESS →
  pUShortRangePrivateGetInstance bleHandle = Some pInst →
  getSpsChannel (Some pInst) chan (gpChannelList s) = None →
  uBleDataSend lock write bleHandle chan pData s = NullDereference.
Proof.
  intros -> Hh Hget. unfold uBleDataSend.
  rewrite bool_decide_eq_true_2 by done. by rewrite Hh, Hget.
Qed.

(** [uBleDataReceive], next to it, checks the pointer. *)
Lemma uBleDataReceive_unknown_channel s (bleHandle chan len : Z) pInst :
  pUShortRangePrivateGetInstance bleHandle = Some pInst →
  getSpsChannel (Some pInst) chan (gpChannelList s) = None →
  uBleDataReceive bleHandle chan len s
  = (U_ERROR_COMMON_INVALID_PARAMETER, [], s).
Proof. intros Hh Hget. unfold uBleDataReceive. by rewrite Hh, Hget. Qed.

Lemma ifSuccess_success (result : Z) (e : effect) s :
  ifSuccess result e (U_ERROR_COMMON_SUCCESS, s) = (result, emit e s).
Proof. unfold ifSuccess. simpl. by rewrite bool_decide_eq_true_2. Qed.

Lemma ifSuccess_failure (result errorCode : Z) (e : effect) s :
  errorCode ≠ U_ERROR_COMMON_SUCCESS →
  ifSuccess result e (errorCode, s) = (errorCode, s).
Proof.
  intros Hne. unfold ifSuccess. simpl. by rewrite bool_decide_eq_false_2.
Qed.

(** C8. On a valid instance, with the lock taken:
    a callback given while none is set is stored, the four registrations
    are made, and if all four succeed the result is success;
    no callback given while one is set clears it, undoes the registrations
    and the result is success;
    in the two other combinations the result is
    [U_ERROR_COMMON_INVALID_PARAMETER] and the state is untouched. *)
Theorem uBleDataSetCallbackConnectionStatus_cases s
    (r : connectionStatusResults) (bleHandle : Z)
    (cb param : option positive) pInst :
  uShortRangeLock_result r = U_ERROR_COMMON_SUCCESS →
  pUShortRangePrivateGetInstance bleHandle = Some pInst →
  let inst := instances s pInst in
  let out := uBleDataSetCallbackConnectionStatus r bleHandle cb param s in
  (is_Some cb →
   pSpsConnectionCallback inst = None →
   setUrcHandler_UUBTACLC_result r = U_ERROR_COMMON_SUCCESS →
   setUrcHandler_UUBTACLD_result r = U_ERROR_COMMON_SUCCESS →
   connectionStatusCallback_result r = U_ERROR_COMMON_SUCCESS →
   btEventCallbackSet_result r = U_ERROR_COMMON_SUCCESS →
   out.1 = U_ERROR_COMMON_SUCCESS
   ∧ pSpsConnectionCallback (instances out.2 pInst) = cb
   ∧ pSpsConnectionCallbackParameter (instances out.2 pInst) = param
   ∧ trace out.2
     = trace s ++
       [uAtClientSetUrcHandler (atHandle inst) UUBTACLC;
        uAtClientSetUrcHandler (atHandle inst) UUBTACLD;
        uShortRangeConnectionStatusCallback bleHandle true (Some pInst);
        uShortRangeEdmStreamBtEventCallbackSet (streamHandle inst) true
          (Some pInst)])
  ∧ (cb = None →
     is_Some (pSpsConnectionCallback inst) →
     out.1 = U_ERROR_COMMON_SUCCESS
     ∧ pSpsConnectionCallback (instances out.2 pInst) = None
     ∧ pSpsConnectionCallbackParameter (instances out.2 pInst) = None
     ∧ trace out.2
       = trace s ++
         [uAtClientRemoveUrcHandler (atHandle inst) UUBTACLC;
          uAtClientRemoveUrcHandler (atHandle inst) UUBTACLD;
          uShortRangeConnectionStatusCallback bleHandle false None;
          uShortRangeEdmStreamBtEventCallbackSet (streamHandle inst) false
            None])
  ∧ ((is_Some cb ∧ is_Some (pSpsConnectionCallback inst))
     ∨ (cb = None ∧ pSpsConnectionCallback inst = None) →
     out = (U_ERROR_COMMON_INVALID_PARAMETER, s)).
Proof.
  intros Hlock Hh inst out. subst out inst.
  unfold uBleDataSetCallbackConnectionStatus.
  rewrite (bool_decide_eq_true_2 _ Hlock), Hh.
  split; [|split].
  - intros [f ->] -> H1 H2 H3 H4. cbv zeta.
    rewrite H1, H2, H3, H4. rewrite !ifSuccess_success.
    cbn [fst snd].
    rewrite (bool_decide_eq_false_2 (U_ERROR_COMMON_SUCCESS ≠ _)) by tauto.
    state_simpl. rewrite <- !app_assoc. done.
  - intros -> [f ->]. unfold cleanUpConnectionStatus. state_simpl.
    rewrite <- !app_assoc. done.
  - intros [[[f ->] [g ->]]|[-> ->]]; done.
Qed.

(** C10. When [uBleDataSetDataAvailableCallback] stores a callback while
    there is no event queue and [uPortEventQueueOpen] fails, the result is
    still what the EDM stream returned for the data hook, success included;
    the callback is stored, the hook is set, and [gBleDataEventQueue] is
    [U_ERROR_COMMON_NOT_INITIALISED], which is the handle the next
    [dataCallback] on an empty buffer sends its event to. *)
Theorem uBleDataSetDataAvailableCallback_queue_failure s
    (lock opened hooked bleHandle : Z) (cb : positive)
    (param : option positive) pInst :
  lock = U_ERROR_COMMON_SUCCESS →
  pUShortRangePrivateGetInstance bleHandle = Some pInst →
  pBtDataAvailableCallback (instances s pInst) = None →
  gBleDataEventQueue s = U_ERROR_COMMON_NOT_INITIALISED →
  opened < 0 →
  let out :=
    uBleDataSetDataAvailableCallback lock opened hooked bleHandle (Some cb)
      param s in
  out.1 = hooked
  ∧ gBleDataEventQueue out.2 = U_ERROR_COMMON_NOT_INITIALISED
  ∧ pBtDataAvailableCallback (instances out.2 pInst) = Some cb
  ∧ trace out.2
    = trace s ++
      [uPortEventQueueOpen;
       uShortRangeEdmStreamDataEventCallbackSet
         (streamHandle (instances s pInst)) true (Some pInst)]
  ∧ ∀ (handle chan : Z) (pData : list byte) (i : nat)
      (pChannel : uBleDataSpsChannel_t),
      pBtDataCallback (instances s pInst) = None →
      getSpsChannel (Some pInst) chan (gpChannelList s)
        = Some (i, pChannel) →
      ringBufferDataSize (rxRingBuffer pChannel) = 0%nat →
      trace (dataCallback handle chan pData (Some pInst) out.2)
      = trace out.2 ++
        [uPortEventQueueSend U_ERROR_COMMON_NOT_INITIALISED
           (BleDataEvent chan pInst)].
Proof.
  intros -> Hh Hnone Hq Hopen out. subst out.
  unfold uBleDataSetDataAvailableCallback.
  rewrite bool_decide_eq_true_2 by done. rewrite Hh, Hnone.
  state_simpl. rewrite Hq.
  rewrite (bool_decide_eq_true_2
             (U_ERROR_COMMON_NOT_INITIALISED = U_ERROR_COMMON_NOT_INITIALISED))
    by done.
  rewrite (bool_decide_eq_true_2 (opened < 0)) by done.
  state_simpl. rewrite <- !app_assoc. repeat split; try done.
  intros handle chan pData i pChannel Hdata Hget Hempty.
  unfold dataCallback. state_simpl. rewrite Hdata, Hget.
  rewrite (bool_decide_eq_true_2 _ Hempty). state_simpl.
  by rewrite <- !app_assoc.
Qed.

End PublicFacts.

(** ** Evaluations on [smallPlatform] *)

(** C7. Deleting the channel at the head of a list of two stores [NULL]
    into the list head: channel 2, found before the deletion of channel 1,
    is not found after it. *)
Theorem deleteSpsChannel_head_loses_rest :
  let c1 := specChannel 1 [] in
  let c2 := specChannel 2 [x01] in
  getSpsChannel (Some 1%positive) 2 [c1; c2] = Some (1%nat, c2)
  ∧ deleteSpsChannel (Some 1%positive) 1 [c1; c2] = []
  ∧ getSpsChannel (Some 1%positive) 2
      (deleteSpsChannel (Some 1%positive) 1 [c1; c2]) = None.
Proof. repeat split. Qed.

(** C2. On a valid handle and a channel that is not in the registry,
    [uBleDataSend] reads through the [NULL] that [getSpsChannel] returned,
    where [uBleDataReceive] returns
    [U_ERROR_COMMON_INVALID_PARAMETER]. *)
Theorem uBleDataSend_null_channel :
  let s := stateOf (H := specRingBuffer) listeningInstance ∅ [] in
  @uBleDataSend smallPlatform specRingBuffer 0 0 1 3 [x01] s = NullDereference
  ∧ @uBleDataReceive smallPlatform specRingBuffer 1 3 8 s = (-5, [], s).
Proof. split; reflexivity. Qed.

(** C1. Two connections reported with no dispatch between them.  The
    first pair (transport report {Connected, channel 3, mtu 240, AA:BB},
    command report {connection handle 7}) schedules record 7 once and
    leaves it in the pending slot, which only [spsEventCallback] empties.
    The transport report of the second connection {Connected, channel 4,
    mtu 23, CC:DD} then finds the slot set: it allocates nothing, writes
    over record 7 and schedules it at once, before the second connection's
    command report {connection handle 8} has come, with the connection
    handle of the first connection beside the channel of the second.  The
    command report schedules the same record a third time.  The first
    dispatch calls the user once, with the fields of the second connection
    only, and frees the record that the two dispatches still to come were
    given. *)
Theorem correlator_two_pairs_three_dispatches :
  let scheduled := uAtClientCallback (Some 9%positive) (Some 7%positive) in
  let s0 := stateOf (H := specRingBuffer) listeningInstance ∅ [] in
  let s1 :=
    @btEdmConnectionCallback smallPlatform specRingBuffer
      (Some (7%positive, junkRecord)) 4 0 3 true 240 [xaa; xbb]
      (Some 1%positive) s0 in
  let s2 := atConnectionEvent (Some (8%positive, junkRecord)) 7 0 1%positive
              s1 in
  let s3 :=
    @btEdmConnectionCallback smallPlatform specRingBuffer
      (Some (8%positive, junkRecord)) 4 0 4 true 23 [xcc; xdd]
      (Some 1%positive) s2 in
  let s4 := atConnectionEvent (Some (8%positive, junkRecord)) 8 0 1%positive
              s3 in
  let s5 := @spsEventCallback smallPlatform specRingBuffer true
              (Some 7%positive) s4 in
  (trace s1 = [] ∧ trace s2 = [scheduled]
   ∧ heap s2 !! 7%positive = Some (completedRecord 0 3)
   ∧ pPendingSpsConnectionEvent (instances s2 1%positive) = Some 7%positive)
  ∧ (trace s3 = [scheduled; scheduled]
     ∧ heap s3 !! 7%positive
       = Some (SpsConnection (Some 1%positive) 7 0 [xcc; xdd] 4 23
                 (Some 5%positive) None)
     ∧ heap s3 !! 8%positive = None)
  ∧ (trace s4 = [scheduled; scheduled; scheduled]
     ∧ heap s4 !! 7%positive
       = Some (SpsConnection (Some 1%positive) 8 0 [xcc; xdd] 4 23
                 (Some 5%positive) None)
     ∧ heap s4 !! 8%positive = None)
  ∧ (trace s5
     = [scheduled; scheduled; scheduled;
        callSpsConnectionCallback 5%positive 8 [xcc; xdd] 0 4 23 None
          [specChannel 4 []]]
     ∧ heap s5 !! 7%positive = None).
Proof. repeat split; vm_compute; reflexivity. Qed.

(** C5, the claim as stated fails: a block of no bytes for an empty buffer
    sends an event and leaves the buffer empty, so the block after it sends
    a second one. *)
Lemma dataCallback_two_events_after_empty_block :
  trace
    (dataCallback 0 3 [x01] (Some 1%positive)
       (dataCallback 0 3 [] (Some 1%positive)
          (stateOf (H := specRingBuffer) listeningInstance ∅
             [specChannel 3 []])))
  = [uPortEventQueueSend (-2) (BleDataEvent 3 1%positive);
     uPortEventQueueSend (-2) (BleDataEvent 3 1%positive)].
Proof. reflexivity. Qed.

(** C3. With two channels in a registry of at most two, [createSpsChannel]
    refuses the channel of a Connected event for channel 3 and
    [spsEventCallback] calls the user callback all the same: the callback
    runs on a channel list in which channel 3 is not found, against the
    comment above the call ("We have to create the SPS channel info before
    calling the callback since it will assume that e.g. the rx buffer
    exists"). *)
Lemma spsEventCallback_connected_registry_full :
  let registry :=
    [specChannel 1 [];
     specChannel 2 []] in
  let s := stateOf listeningInstance {[7%positive := completedRecord 0 3]}
             registry in
  trace (@spsEventCallback smallPlatform specRingBuffer true
           (Some 7%positive) s)
  = [callSpsConnectionCallback 5%positive 7 [xaa; xbb] 0 3 240 None registry]
  ∧ getSpsChannel (Some 1%positive) 3 registry = None.
Proof. split; vm_compute; reflexivity. Qed.

(** ** The theorems at concrete inputs *)


(** The transport-side report {Connected, channel 3, mtu 240, AA:BB} comes
    first and the command-side report {connection handle 7} second. *)
Lemma correlator_either_order_witness :
  trace
    (atConnectionEvent None 7 0 1%positive
       (@btEdmConnectionCallback smallPlatform specRingBuffer
          (Some (7%positive, junkRecord)) 4 0 3 true 240 [xaa; xbb]
          (Some 1%positive) (stateOf listeningInstance ∅ [])))
  = [uAtClientCallback (Some 9%positive) (Some 7%positive)]
  ∧ heap
      (atConnectionEvent None 7 0 1%positive
         (@btEdmConnectionCallback smallPlatform specRingBuffer
            (Some (7%positive, junkRecord)) 4 0 3 true 240 [xaa; xbb]
            (Some 1%positive) (stateOf listeningInstance ∅ []))) !! 7%positive
    = Some (completedRecord 0 3).
Proof.
  destruct (@correlator_either_order smallPlatform specRingBuffer
              (stateOf listeningInstance ∅ []) 1%positive 9%positive
              5%positive 7%positive junkRecord None 7 0 0 3 240 4 true
              [xaa; xbb] eq_refl eq_refl eq_refl)
    as [(_ & Htrace & Hheap) _]; [lia|lia|].
  split; [exact Htrace|exact Hheap].
Defined.

(** A Disconnected event for channel 3, the only channel in the registry. *)
Lemma spsEventCallback_channel_lifetime_witness :
  channelCount (Some 1%positive) 3
    [specChannel 3 []] = 1%nat
  ∧ getSpsChannel (Some 1%positive) 3
      (gpChannelList
         (@spsEventCallback smallPlatform specRingBuffer true
            (Some 7%positive)
            (stateOf listeningInstance {[7%positive := completedRecord 1 3]}
               [specChannel 3 []]))) = None.
Proof.
  split; [reflexivity|].
  destruct (@spsEventCallback_channel_lifetime smallPlatform specRingBuffer
              true
              (stateOf listeningInstance {[7%positive := completedRecord 1 3]}
                 [specChannel 3 []])
              7%positive (completedRecord 1 3) 5%positive)
    as [_ Hdisconnected];
    [vm_compute; reflexivity|reflexivity|simpl; lia|simpl; lia|].
  apply Hdisconnected; reflexivity.
Defined.

(** One channel in a registry of at most two: a second is added; a third
    is not. *)
Lemma createSpsChannel_bounded_witness :
  @createSpsChannel smallPlatform specRingBuffer true (Some 1%positive) 2
    [specChannel 1 [x01]]
  = [specChannel 1 [x01]; specChannel 2 []]
  ∧ @createSpsChannel smallPlatform specRingBuffer true (Some 1%positive) 3
      [specChannel 1 [x01]; specChannel 2 []]
    = [specChannel 1 [x01]; specChannel 2 []].
Proof.
  split.
  - destruct (@createSpsChannel_bounded smallPlatform specRingBuffer true
                (Some 1%positive) 2 [specChannel 1 [x01]])
      as (_ & Hadd & _); [simpl; lia|simpl; lia|].
    apply Hadd. simpl. lia.
  - destruct (@createSpsChannel_bounded smallPlatform specRingBuffer true
                (Some 1%positive) 3
                [specChannel 1 [x01];
                 specChannel 2 []])
      as (Hfull & _ & _); [simpl; lia|simpl; lia|].
    apply Hfull. reflexivity.
Defined.

(** Two bytes for a buffer of four that holds three. *)
Lemma dataCallback_appends_what_fits_witness :
  ∃ pChannel',
    getSpsChannel (Some 1%positive) 3
      (gpChannelList
         (dataCallback 0 3 [x04; x05] (Some 1%positive)
            (stateOf (H := specRingBuffer) listeningInstance ∅
               [specChannel 3 [x01; x02; x03]])))
    = Some (0%nat, pChannel')
    ∧ stored (rxRingBuffer pChannel') = [x01; x02; x03; x04].
Proof.
  destruct (dataCallback_appends_what_fits
              (stateOf (H := specRingBuffer) listeningInstance ∅
                 [specChannel 3 [x01; x02; x03]])
              0 3 [x04; x05] 1%positive 0%nat
              (specChannel 3 [x01; x02; x03])
              eq_refl (mk_is_Some _ _ eq_refl) eq_refl)
    as (pChannel' & Hget & Hstored & _).
  exists pChannel'. split; [exact Hget|exact Hstored].
Defined.

(** Two blocks of one byte for an empty buffer: one event. *)
Lemma dataCallback_event_on_empty_witness :
  trace
    (dataCallback 0 3 [x02] (Some 1%positive)
       (dataCallback 0 3 [x01] (Some 1%positive)
          (stateOf (H := specRingBuffer) listeningInstance ∅
             [specChannel 3 []])))
  = [uPortEventQueueSend (-2) (BleDataEvent 3 1%positive)].
Proof.
  destruct (dataCallback_event_on_empty
              (stateOf (H := specRingBuffer) listeningInstance ∅
                 [specChannel 3 []])
              0 3 [x01] [x02] 1%positive 0%nat
              (specChannel 3 [])
              eq_refl (mk_is_Some _ _ eq_refl) eq_refl)
    as (_ & _ & Htwo).
  apply Htwo; [reflexivity|vm_compute; discriminate].
Defined.


(** Enabling on an idle instance, every registration succeeding. *)
Lemma uBleDataSetCallbackConnectionStatus_cases_witness :
  (@uBleDataSetCallbackConnectionStatus smallPlatform specRingBuffer
     (ConnectionStatusResults 0 0 0 0 0) 1 (Some 5%positive) None
     (stateOf idleInstance ∅ [])).1 = 0
  ∧ @uBleDataSetCallbackConnectionStatus smallPlatform specRingBuffer
      (ConnectionStatusResults 0 0 0 0 0) 1 (Some 5%positive) None
      (stateOf listeningInstance ∅ [])
    = (-5, stateOf listeningInstance ∅ []).
Proof.
  split.
  - destruct (@uBleDataSetCallbackConnectionStatus_cases smallPlatform
                specRingBuffer (stateOf idleInstance ∅ [])
                (ConnectionStatusResults 0 0 0 0 0) 1 (Some 5%positive) None
                1%positive eq_refl eq_refl) as (Henable & _ & _).
    apply Henable; reflexivity || (eexists; reflexivity).
  - destruct (@uBleDataSetCallbackConnectionStatus_cases smallPlatform
                specRingBuffer (stateOf listeningInstance ∅ [])
                (ConnectionStatusResults 0 0 0 0 0) 1 (Some 5%positive) None
                1%positive eq_refl eq_refl) as (_ & _ & Hinvalid).
    apply Hinvalid. left. split; eexists; reflexivity.
Defined.

(** The queue cannot be opened (-1) and the EDM stream accepts the hook
    (0): the result is success and the queue handle stays -2. *)
Lemma uBleDataSetDataAvailableCallback_queue_failure_witness :
  (@uBleDataSetDataAvailableCallback smallPlatform specRingBuffer 0 (-1) 0 1
     (Some 6%positive) None (stateOf idleInstance ∅ [])).1 = 0
  ∧ gBleDataEventQueue
      (@uBleDataSetDataAvailableCallback smallPlatform specRingBuffer 0 (-1)
         0 1 (Some 6%positive) None (stateOf idleInstance ∅ [])).2 = -2.
Proof.
  destruct (@uBleDataSetDataAvailableCallback_queue_failure smallPlatform
              specRingBuffer (stateOf idleInstance ∅ []) 0 (-1) 0 1
              6%positive None 1%positive eq_refl eq_refl eq_refl eq_refl)
    as (Hresult & Hqueue & _); [lia|].
  split; [exact Hresult|exact Hqueue].
Defined.

(** * Further properties of the code *)

(** ** The channel registry *)

Section RegistryMore.
Context `{Pf : Platform} `{Rb : RingBuffer}.

Implicit Types (l : list uBleDataSpsChannel_t) (pInst : option positive).

Lemma isSpsChannel_key pInst (chan : Z) (c : uBleDataSpsChannel_t) :
  isSpsChannel pInst chan c = true ↔ channelKey c = (pInst, chan).
Proof.
  unfold isSpsChannel, channelKey.
  rewrite andb_true_iff, !bool_decide_eq_true. split.
  - intros [-> ->]. done.
  - intros [= -> ->]. done.
Qed.

Lemma isSpsChannel_not_key pInst (chan : Z) (c : uBleDataSpsChannel_t) :
  isSpsChannel pInst chan c = false ↔ channelKey c ≠ (pInst, chan).
Proof.
  rewrite <- isSpsChannel_key. by destruct (isSpsChannel pInst chan c).
Qed.

Lemma getSpsChannel_app pInst (chan : Z) l1 l2 :
  getSpsChannel pInst chan (l1 ++ l2)
  = match getSpsChannel pInst chan l1 with
    | Some found => Some found
    | None =>
        prod_map (λ i, (length l1 + i)%nat) id <$> getSpsChannel pInst chan l2
    end.
Proof.
  induction l1 as [|d l1 IH]; simpl.
  - by destruct (getSpsChannel pInst chan l2) as [[??]|].
  - destruct (isSpsChannel pInst chan d); [done|]. rewrite IH.
    destruct (getSpsChannel pInst chan l1) as [[??]|]; [done|].
    by destruct (getSpsChannel pInst chan l2) as [[??]|].
Qed.

(** X1. [getSpsChannel] returns [NULL] exactly when no node carries the
    instance and channel asked for, and otherwise the first node that
    does: every node in front of it is another channel. *)
Theorem getSpsChannel_first pInst (chan : Z) l :
  match getSpsChannel pInst chan l with
  | None => ∀ c, c ∈ l → channelKey c ≠ (pInst, chan)
  | Some (i, c) =>
      l !! i = Some c
      ∧ channelKey c = (pInst, chan)
      ∧ ∀ j d,
          (j < i)%nat → l !! j = Some d → channelKey d ≠ (pInst, chan)
  end.
Proof.
  induction l as [|d l IH]; simpl.
  - intros c Hc. by apply elem_of_nil in Hc.
  - destruct (isSpsChannel pInst chan d) eqn:Hd.
    + split; [done|]. split; [by apply isSpsChannel_key|]. intros; lia.
    + apply isSpsChannel_not_key in Hd.
      destruct (getSpsChannel pInst chan l) as [[i c]|]; simpl.
      * destruct IH as (Hi & Hc & Hfirst). split; [done|]. split; [done|].
        intros [|j] e Hj He; simpl in He.
        -- by injection He as <-.
        -- apply (Hfirst j); [lia|done].
      * intros c [->|Hc]%elem_of_cons; [done|by apply IH].
Qed.

(** X2. A channel that was not in the registry is found right after its
    creation, at the end of the list, with the buffer that
    [ringBufferCreate] returned and the default send timeout. *)
Theorem createSpsChannel_found pInst (chan : Z) l :
  U_BLE_DATA_MAX_CONNECTIONS < 2 ^ 32 →
  Z.of_nat (length l) < U_BLE_DATA_MAX_CONNECTIONS →
  getSpsChannel pInst chan l = None →
  getSpsChannel pInst chan (createSpsChannel true pInst chan l)
  = Some (length l,
          SpsChannel chan pInst (ringBufferCreate U_BLE_DATA_BUFFER_SIZE)
            U_BLE_DATA_DEFAULT_SEND_TIMEOUT_MS).
Proof.
  intros Hmax Hroom Hnone.
  rewrite createSpsChannel_room by done.
  rewrite getSpsChannel_app, Hnone. simpl.
  rewrite isSpsChannel_init. simpl. by rewrite Nat.add_0_r.
Qed.

(** X3. [createSpsChannel] does not look for the channel it is asked to
    create: when the channel is in the registry already and there is room,
    one more node is linked in, and [getSpsChannel] goes on returning the
    old node. *)
Theorem createSpsChannel_duplicate pInst (chan : Z) l (i : nat)
    (c : uBleDataSpsChannel_t) :
  U_BLE_DATA_MAX_CONNECTIONS < 2 ^ 32 →
  Z.of_nat (length l) < U_BLE_DATA_MAX_CONNECTIONS →
  getSpsChannel pInst chan l = Some (i, c) →
  length (createSpsChannel true pInst chan l) = S (length l)
  ∧ getSpsChannel pInst chan (createSpsChannel true pInst chan l)
    = Some (i, c).
Proof.
  intros Hmax Hroom Hsome.
  rewrite createSpsChannel_room by done. split.
  - rewrite length_app. simpl. lia.
  - by rewrite getSpsChannel_app, Hsome.
Qed.

(** Whatever [createSpsChannel] is asked to create, a channel that was
    found before is found after, in the same node. *)
Lemma createSpsChannel_keeps_found (malloc : bool) pInst (chan : Z)
    pInst' (chan' : Z) l (i : nat) (c : uBleDataSpsChannel_t) :
  getSpsChannel pInst chan l = Some (i, c) →
  getSpsChannel pInst chan (createSpsChannel malloc pInst' chan' l)
  = Some (i, c).
Proof.
  intros Hsome. destruct l as [|d l]; [done|].
  unfold createSpsChannel.
  destruct (bool_decide _ && malloc); [|done].
  by rewrite getSpsChannel_app, Hsome.
Qed.

Lemma unlinkSpsChannel_absent pInst (chan : Z) l :
  getSpsChannel pInst chan l = None → unlinkSpsChannel pInst chan l = l.
Proof.
  induction l as [|d l IH]; simpl; [done|].
  destruct (isSpsChannel pInst chan d); [done|].
  destruct (getSpsChannel pInst chan l) as [[??]|]; [done|].
  intros _. by rewrite IH.
Qed.

Lemma unlinkSpsChannel_delete pInst (chan : Z) l (i : nat)
    (c : uBleDataSpsChannel_t) :
  getSpsChannel pInst chan l = Some (i, c) →
  unlinkSpsChannel pInst chan l = delete i l.
Proof.
  revert i. induction l as [|d l IH]; intros i; simpl; [done|].
  destruct (isSpsChannel pInst chan d).
  - by intros [= <- <-].
  - destruct (getSpsChannel pInst chan l) as [[j e]|]; simpl; [|done].
    intros [= <- <-]. simpl. by rewrite (IH j).
Qed.

(** X4. [deleteSpsChannel] for a channel that is not in the registry
    leaves the registry as it is. *)
Theorem deleteSpsChannel_absent pInst (chan : Z) l :
  getSpsChannel pInst chan l = None →
  deleteSpsChannel pInst chan l = l.
Proof.
  destruct l as [|d l]; simpl; [done|].
  destruct (isSpsChannel pInst chan d); [done|].
  destruct (getSpsChannel pInst chan l) as [[??]|] eqn:Hget; [done|].
  intros _. by rewrite unlinkSpsChannel_absent.
Qed.

(** X5. [deleteSpsChannel] takes out the node that [getSpsChannel] returns
    for the same arguments, and nothing else, when that node is not the
    head of the list; when it is the head, the whole list goes. *)
Theorem deleteSpsChannel_found pInst (chan : Z) l (i : nat)
    (c : uBleDataSpsChannel_t) :
  getSpsChannel pInst chan l = Some (i, c) →
  deleteSpsChannel pInst chan l
  = match i with
    | O => []
    | S _ => delete i l
    end.
Proof.
  destruct l as [|d l]; simpl; [done|].
  destruct (isSpsChannel pInst chan d).
  - by intros [= <- <-].
  - destruct (getSpsChannel pInst chan l) as [[j e]|] eqn:Hget; simpl;
      [|done].
    intros [= <- <-]. simpl. by rewrite (unlinkSpsChannel_delete _ _ _ j e).
Qed.

Lemma unlinkSpsChannel_last pInst (chan : Z) l :
  getSpsChannel pInst chan l = None →
  unlinkSpsChannel pInst chan (l ++ [initSpsChannel pInst chan]) = l.
Proof.
  induction l as [|d l IH]; simpl.
  - by rewrite isSpsChannel_init.
  - destruct (isSpsChannel pInst chan d); [done|].
    destruct (getSpsChannel pInst chan l) as [[??]|]; [done|].
    intros _. by rewrite IH.
Qed.

(** X6. Creating a channel that was not in the registry and deleting it
    again gives the registry back. *)
Theorem createSpsChannel_deleteSpsChannel pInst (chan : Z) l :
  U_BLE_DATA_MAX_CONNECTIONS < 2 ^ 32 →
  Z.of_nat (length l) < U_BLE_DATA_MAX_CONNECTIONS →
  getSpsChannel pInst chan l = None →
  deleteSpsChannel pInst chan (createSpsChannel true pInst chan l) = l.
Proof.
  intros Hmax Hroom Hnone.
  rewrite createSpsChannel_room by done.
  destruct l as [|d l]; simpl in *.
  - by rewrite isSpsChannel_init.
  - destruct (isSpsChannel pInst chan d); [done|].
    destruct (getSpsChannel pInst chan l) as [[??]|] eqn:Hget; [done|].
    by rewrite unlinkSpsChannel_last.
Qed.

End RegistryMore.

(** ** The event correlator *)

Section CorrelatorMore.
Context `{Pf : Platform} `{Rb : RingBuffer}.

Implicit Types (s : State) (p pInst : positive).

(** The state after a pair of reports, in either order: the scheduled
    record, the one call, and the pending slot, which still holds the
    record. *)
Lemma correlator_pair_state s pInst (at_ cb p : positive)
    (junk : uBleDataSpsConnection_t)
    (m : option (positive * uBleDataSpsConnection_t))
    (conn atType kind chan mtu_ stream : Z) (ble : bool) (addr : list byte) :
  atHandle (instances s pInst) = Some at_ →
  pSpsConnectionCallback (instances s pInst) = Some cb →
  pPendingSpsConnectionEvent (instances s pInst) = None →
  let merged :=
    SpsConnection (Some pInst) conn (to_int32 kind) (addrArrayToString addr)
      (to_int32 chan) mtu_ (Some cb)
      (pSpsConnectionCallbackParameter (instances s pInst)) in
  let transport m s :=
    btEdmConnectionCallback m stream kind chan ble mtu_ addr (Some pInst) s in
  let command m s := atConnectionEvent m conn atType pInst s in
  let paired s' :=
    trace s' = trace s ++ [uAtClientCallback (Some at_) (Some p)]
    ∧ heap s' !! p = Some merged
    ∧ gpChannelList s' = gpChannelList s
    ∧ instances s' pInst = setPending (Some p) (instances s pInst) in
  paired (command m (transport (Some (p, junk)) s))
  ∧ paired (transport m (command (Some (p, junk)) s)).
Proof.
  intros Hat Hcb Hpend merged transport command paired.
  subst merged transport command paired.
  unfold btEdmConnectionCallback, atConnectionEvent.
  split.
  - rewrite Hat, Hpend. state_simpl. rewrite Hcb, Hat. state_simpl.
    repeat split.
    by rewrite !lookup_alter_eq, lookup_insert_eq.
  - rewrite Hcb, Hpend. state_simpl. rewrite Hat, Hcb. state_simpl.
    repeat split.
    by rewrite !lookup_alter_eq, lookup_insert_eq.
Qed.

(** What [spsEventCallback] does with a record that carries a callback. *)
Lemma spsEventCallback_state (malloc : bool) s p
    (pStatus : uBleDataSpsConnection_t) (f : positive) :
  heap s !! p = Some pStatus →
  pCallback pStatus = Some f →
  let s' := spsEventCallback malloc (Some p) s in
  (∃ registry,
     trace s'
     = trace s ++
       [callSpsConnectionCallback f (connHandle pStatus) (address pStatus)
          (type pStatus) (dataChannel pStatus) (mtu pStatus)
          (pCallbackParameter pStatus) registry])
  ∧ heap s' !! p = None
  ∧ ∀ pInst, statusInstance pStatus = Some pInst →
      pPendingSpsConnectionEvent (instances s' pInst) = None.
Proof.
  intros Hp Hf s'. subst s'. unfold spsEventCallback. rewrite Hp, Hf.
  destruct (bool_decide (type pStatus = U_SHORT_RANGE_EVENT_CONNECTED)),
    (bool_decide (type pStatus = U_SHORT_RANGE_EVENT_DISCONNECTED)),
    (statusInstance pStatus) as [i|];
    state_simpl; rewrite lookup_delete_eq;
    (split; [by eexists|split; [done|]]);
    intros pInst [= <-] || intros pInst [=]; by rewrite fn_lookup_insert.
Qed.

(** In every case [spsEventCallback] leaves the heap without the record it
    was given. *)
Lemma spsEventCallback_heap (malloc : bool) s p :
  heap (spsEventCallback malloc (Some p) s) = delete p (heap s).
Proof.
  unfold spsEventCallback.
  destruct (heap s !! p) as [pStatus|] eqn:Hp.
  - destruct (pCallback pStatus),
      (bool_decide (type pStatus = U_SHORT_RANGE_EVENT_CONNECTED)),
      (bool_decide (type pStatus = U_SHORT_RANGE_EVENT_DISCONNECTED)),
      (statusInstance pStatus); by state_simpl.
  - symmetry. by apply delete_id.
Qed.

(** X7. A pair of reports, in either order, followed by the dispatch of
    the scheduled record: the user callback is called once, with the
    connection handle of the command side and the address, kind, channel
    and mtu of the transport side; the record is freed and the pending slot
    of the instance is empty again. *)
Theorem correlator_pair_dispatched (malloc : bool) s pInst
    (at_ cb p : positive) (junk : uBleDataSpsConnection_t)
    (m : option (positive * uBleDataSpsConnection_t))
    (conn atType kind chan mtu_ stream : Z) (ble : bool) (addr : list byte) :
  atHandle (instances s pInst) = Some at_ →
  pSpsConnectionCallback (instances s pInst) = Some cb →
  pPendingSpsConnectionEvent (instances s pInst) = None →
  0 ≤ kind < 2 ^ 31 →
  0 ≤ chan < 2 ^ 31 →
  let transport m s :=
    btEdmConnectionCallback m stream kind chan ble mtu_ addr (Some pInst) s in
  let command m s := atConnectionEvent m conn atType pInst s in
  let delivered s' :=
    (∃ registry,
       trace s'
       = trace s ++
         [uAtClientCallback (Some at_) (Some p);
          callSpsConnectionCallback cb conn (addrArrayToString addr) kind
            chan mtu_ (pSpsConnectionCallbackParameter (instances s pInst))
            registry])
    ∧ heap s' !! p = None
    ∧ pPendingSpsConnectionEvent (instances s' pInst) = None in
  delivered
    (spsEventCallback malloc (Some p)
       (command m (transport (Some (p, junk)) s)))
  ∧ delivered
      (spsEventCallback malloc (Some p)
         (transport m (command (Some (p, junk)) s))).
Proof.
  intros Hat Hcb Hpend Hkind Hchan transport command delivered.
  destruct (correlator_pair_state s pInst at_ cb p junk m conn atType kind
              chan mtu_ stream ble addr Hat Hcb Hpend)
    as [(Ht1 & Hh1 & _) (Ht2 & Hh2 & _)].
  rewrite !to_int32_small in Hh1, Hh2 by done.
  subst delivered transport command. cbv beta. split.
  - destruct (spsEventCallback_state malloc _ p _ cb Hh1 eq_refl)
      as ([registry Ht] & Hfree & Hslot).
    split; [|split; [done|by apply Hslot]].
    exists registry. rewrite Ht, Ht1. by rewrite <- app_assoc.
  - destruct (spsEventCallback_state malloc _ p _ cb Hh2 eq_refl)
      as ([registry Ht] & Hfree & Hslot).
    split; [|split; [done|by apply Hslot]].
    exists registry. rewrite Ht, Ht2. by rewrite <- app_assoc.
Qed.

(** X8. Two reports from the same side, with no report from the other
    side in between, also schedule a record.  After two transport-side
    reports its connection handle is what the allocated block happened to
    contain; after two command-side reports everything but the connection
    handle is, the callback pointer included. *)
Theorem correlator_same_side_twice s pInst (at_ cb p : positive)
    (junk : uBleDataSpsConnection_t)
    (m : option (positive * uBleDataSpsConnection_t))
    (conn conn' atType kind kind' chan chan' mtu_ mtu' stream : Z)
    (ble : bool) (addr addr' : list byte) :
  atHandle (instances s pInst) = Some at_ →
  pSpsConnectionCallback (instances s pInst) = Some cb →
  pPendingSpsConnectionEvent (instances s pInst) = None →
  let transport2 :=
    btEdmConnectionCallback m stream kind' chan' ble mtu' addr' (Some pInst)
      (btEdmConnectionCallback (Some (p, junk)) stream kind chan ble mtu_
         addr (Some pInst) s) in
  let command2 :=
    atConnectionEvent m conn' atType pInst
      (atConnectionEvent (Some (p, junk)) conn atType pInst s) in
  (trace transport2 = trace s ++ [uAtClientCallback (Some at_) (Some p)]
   ∧ heap transport2 !! p
     = Some (SpsConnection (Some pInst) (connHandle junk) (to_int32 kind')
               (addrArrayToString addr') (to_int32 chan') mtu' (Some cb)
               (pSpsConnectionCallbackParameter (instances s pInst))))
  ∧ (trace command2 = trace s ++ [uAtClientCallback (Some at_) (Some p)]
     ∧ heap command2 !! p
       = Some (SpsConnection (statusInstance junk) conn' (type junk)
                 (address junk) (dataChannel junk) (mtu junk)
                 (pCallback junk) (pCallbackParameter junk))).
Proof.
  intros Hat Hcb Hpend transport2 command2. subst transport2 command2.
  unfold btEdmConnectionCallback, atConnectionEvent.
  split.
  - rewrite Hat, Hpend. state_simpl. rewrite Hat. state_simpl.
    split; [done|].
    rewrite !lookup_alter_eq, lookup_insert_eq. simpl. by rewrite Hcb.
  - rewrite Hcb, Hpend. state_simpl. rewrite Hcb, Hat. state_simpl.
    split; [done|].
    by rewrite !lookup_alter_eq, lookup_insert_eq.
Qed.

(** X9. When the allocation for the first report of a connection fails,
    that report is lost without trace, the second report of the same
    connection is parked in the pending slot, and it is completed by the
    first report of the next connection: the record then scheduled has the
    connection handle of one connection and the kind, channel, mtu and
    address of the other. *)
Theorem correlator_after_failed_malloc s pInst (at_ cb p : positive)
    (junk : uBleDataSpsConnection_t)
    (m : option (positive * uBleDataSpsConnection_t))
    (conn atType kind kind' chan chan' mtu_ mtu' stream : Z) (ble : bool)
    (addr addr' : list byte) :
  atHandle (instances s pInst) = Some at_ →
  pSpsConnectionCallback (instances s pInst) = Some cb →
  pPendingSpsConnectionEvent (instances s pInst) = None →
  let s1 :=
    btEdmConnectionCallback None stream kind chan ble mtu_ addr (Some pInst)
      s in
  let s2 := atConnectionEvent (Some (p, junk)) conn atType pInst s1 in
  let s3 :=
    btEdmConnectionCallback m stream kind' chan' ble mtu' addr' (Some pInst)
      s2 in
  (trace s1 = trace s ∧ heap s1 = heap s
   ∧ pPendingSpsConnectionEvent (instances s1 pInst) = None)
  ∧ (trace s2 = trace s
     ∧ pPendingSpsConnectionEvent (instances s2 pInst) = Some p)
  ∧ (trace s3 = trace s ++ [uAtClientCallback (Some at_) (Some p)]
     ∧ heap s3 !! p
       = Some (SpsConnection (Some pInst) conn (to_int32 kind')
                 (addrArrayToString addr') (to_int32 chan') mtu' (Some cb)
                 (pSpsConnectionCallbackParameter (instances s pInst)))).
Proof.
  intros Hat Hcb Hpend s1 s2 s3. subst s1 s2 s3.
  unfold btEdmConnectionCallback, atConnectionEvent.
  rewrite Hat, Hpend. state_simpl. rewrite Hcb. state_simpl.
  rewrite Hat. state_simpl.
  repeat split.
  rewrite !lookup_alter_eq, lookup_insert_eq. simpl. by rewrite Hcb.
Qed.

(** X10. Scheduling does not empty the pending slot; only the dispatch
    does.  A report that comes after a completed pair and before its
    dispatch is written into the record that is already scheduled and
    schedules it a second time; one dispatch frees the record, so the
    other runs on a pointer into freed memory. *)
Theorem correlator_report_before_dispatch (malloc : bool) s pInst
    (at_ cb p : positive) (junk : uBleDataSpsConnection_t)
    (m m' : option (positive * uBleDataSpsConnection_t))
    (conn conn' atType kind chan mtu_ stream : Z) (ble : bool)
    (addr : list byte) :
  atHandle (instances s pInst) = Some at_ →
  pSpsConnectionCallback (instances s pInst) = Some cb →
  pPendingSpsConnectionEvent (instances s pInst) = None →
  let s2 :=
    atConnectionEvent m conn atType pInst
      (btEdmConnectionCallback (Some (p, junk)) stream kind chan ble mtu_
         addr (Some pInst) s) in
  let s3 := atConnectionEvent m' conn' atType pInst s2 in
  pPendingSpsConnectionEvent (instances s2 pInst) = Some p
  ∧ trace s3
    = trace s ++
      [uAtClientCallback (Some at_) (Some p);
       uAtClientCallback (Some at_) (Some p)]
  ∧ connHandle <$> heap s3 !! p = Some conn'
  ∧ heap (spsEventCallback malloc (Some p) s3) !! p = None.
Proof.
  intros Hat Hcb Hpend s2 s3. subst s2 s3.
  unfold btEdmConnectionCallback, atConnectionEvent.
  rewrite Hat, Hpend. state_simpl. rewrite Hcb, Hat. state_simpl.
  rewrite Hcb, Hat. state_simpl.
  split; [done|]. split; [by rewrite <- app_assoc|].
  split; [by rewrite !lookup_alter_eq, lookup_insert_eq|].
  rewrite spsEventCallback_heap. apply lookup_delete_eq.
Qed.

(** X11. A record whose callback pointer is [NULL] is dispatched without
    any call and without any change to the registry, whatever its kind;
    the record is freed and the pending slot of its instance emptied all
    the same. *)
Theorem spsEventCallback_without_callback (malloc : bool) s p
    (pStatus : uBleDataSpsConnection_t) :
  heap s !! p = Some pStatus →
  pCallback pStatus = None →
  let s' := spsEventCallback malloc (Some p) s in
  trace s' = trace s
  ∧ gpChannelList s' = gpChannelList s
  ∧ heap s' = delete p (heap s)
  ∧ ∀ pInst, statusInstance pStatus = Some pInst →
      pPendingSpsConnectionEvent (instances s' pInst) = None.
Proof.
  intros Hp Hf s'. subst s'. unfold spsEventCallback. rewrite Hp, Hf.
  destruct (statusInstance pStatus) as [i|]; state_simpl;
    repeat split; try done.
  intros pInst [= <-]. by rewrite fn_lookup_insert.
Qed.

End CorrelatorMore.

(** ** The receive path *)

Section ReceiveMore.
Context `{Pf : Platform} `{Rb : RingBuffer}.

Implicit Types (s : State) (pInst : positive).

(** Overwriting a node by one with the same value under [f] does not
    change the list of values under [f]. *)
Lemma fmap_insert_same {A B : Type} (f : A → B) (l : list A) (i : nat)
    (x y : A) :
  l !! i = Some x → f y = f x → f <$> <[i := y]> l = f <$> l.
Proof.
  intros Hi Hf. rewrite list_fmap_insert, Hf.
  apply list_insert_id. by rewrite list_lookup_fmap, Hi.
Qed.

(** X12. Whatever it is called with, [dataCallback] changes nothing but
    the contents of receive buffers and the trace: the registry keeps its
    nodes, their instances, channels and send timeouts, and the instances,
    the connection records and the event queue handle are untouched. *)
Theorem dataCallback_frame s (handle chan : Z) (pData : list byte)
    (pParameters : option positive) :
  let s' := dataCallback handle chan pData pParameters s in
  channelKey <$> gpChannelList s' = channelKey <$> gpChannelList s
  ∧ txTimeout <$> gpChannelList s' = txTimeout <$> gpChannelList s
  ∧ instances s' = instances s
  ∧ heap s' = heap s
  ∧ gBleDataEventQueue s' = gBleDataEventQueue s.
Proof.
  intros s'. subst s'. unfold dataCallback.
  destruct pParameters as [pInst|]; [|done].
  destruct (pBtDataCallback (instances s pInst)); [done|].
  destruct (pBtDataAvailableCallback (instances s pInst)); [|done].
  destruct (getSpsChannel (Some pInst) chan (gpChannelList s))
    as [[i pChannel]|] eqn:Hget; [|done].
  apply getSpsChannel_Some in Hget as [Hi _].
  destruct (bool_decide (ringBufferDataSize (rxRingBuffer pChannel) = 0%nat));
    state_simpl;
    (split; [by apply (fmap_insert_same _ _ _ pChannel)|]);
    (split; [by apply (fmap_insert_same _ _ _ pChannel)|done]).
Qed.

(** While the deprecated data callback is set, a block goes to it and
    nowhere else: nothing is buffered and no event is sent, whether or not
    a data-available callback is set as well. *)
Lemma dataCallback_deprecated_first s (handle chan : Z)
    (pData : list byte) pInst (f : positive) :
  pBtDataCallback (instances s pInst) = Some f →
  let s' := dataCallback handle chan pData (Some pInst) s in
  gpChannelList s' = gpChannelList s
  ∧ trace s'
    = trace s ++
      [callBtDataCallback f chan pData
         (pBtDataCallbackParameter (instances s pInst))].
Proof. intros Hf s'. subst s'. unfold dataCallback. by rewrite Hf. Qed.

(** X13. A Connected event dispatched while the registry is full gets its
    callback but no channel, and a block that then arrives for that
    channel is dropped: no byte is buffered, no event is sent, the state
    is as it was after the dispatch. *)
Theorem dataCallback_after_refused_channel s (p f pInst : positive)
    (pStatus : uBleDataSpsConnection_t) (malloc : bool) (handle : Z)
    (pData : list byte) :
  1 ≤ U_BLE_DATA_MAX_CONNECTIONS < 2 ^ 32 →
  U_SHORT_RANGE_EVENT_CONNECTED ≠ U_SHORT_RANGE_EVENT_DISCONNECTED →
  Z.of_nat (length (gpChannelList s)) = U_BLE_DATA_MAX_CONNECTIONS →
  heap s !! p = Some pStatus →
  pCallback pStatus = Some f →
  type pStatus = U_SHORT_RANGE_EVENT_CONNECTED →
  statusInstance pStatus = Some pInst →
  getSpsChannel (Some pInst) (dataChannel pStatus) (gpChannelList s) = None →
  pBtDataCallback (instances s pInst) = None →
  let s1 := spsEventCallback malloc (Some p) s in
  trace s1
  = trace s ++
    [callSpsConnectionCallback f (connHandle pStatus) (address pStatus)
       (type pStatus) (dataChannel pStatus) (mtu pStatus)
       (pCallbackParameter pStatus) (gpChannelList s)]
  ∧ gpChannelList s1 = gpChannelList s
  ∧ dataCallback handle (dataChannel pStatus) pData (Some pInst) s1 = s1.
Proof.
  intros Hmax Hne Hfull Hp Hf Hty Hi Hnone Hdata s1.
  assert (s1
          = withHeap (delete p)
              (withInstance pInst (setPending None)
                 (emit (callSpsConnectionCallback f (connHandle pStatus)
                          (address pStatus) (type pStatus)
                          (dataChannel pStatus) (mtu pStatus)
                          (pCallbackParameter pStatus) (gpChannelList s)) s)))
    as ->.
  { subst s1. unfold spsEventCallback. rewrite Hp, Hf, Hi.
    rewrite (bool_decide_eq_true_2 _ Hty).
    rewrite (bool_decide_eq_false_2
               (type pStatus = U_SHORT_RANGE_EVENT_DISCONNECTED))
      by congruence.
    state_simpl. by rewrite createSpsChannel_full. }
  split; [done|]. split; [done|].
  unfold dataCallback. state_simpl. rewrite Hdata.
  destruct (pBtDataAvailableCallback (instances s pInst)); [|done].
  by rewrite Hnone.
Qed.

(** X14. An event that is still queued when the data-available callback is
    cleared is dispatched to nobody: [onBleDataEvent] looks the callback up
    again and, finding [NULL], makes no call. *)
Theorem onBleDataEvent_after_disable s (lock opened hooked bleHandle chan : Z)
    pInst :
  lock = U_ERROR_COMMON_SUCCESS →
  pUShortRangePrivateGetInstance bleHandle = Some pInst →
  is_Some (pBtDataAvailableCallback (instances s pInst)) →
  let s1 :=
    (uBleDataSetDataAvailableCallback lock opened hooked bleHandle None None
       s).2 in
  onBleDataEvent (BleDataEvent chan pInst) s1 = s1.
Proof.
  intros -> Hh [f Hf] s1. subst s1.
  unfold uBleDataSetDataAvailableCallback.
  rewrite bool_decide_eq_true_2 by done. rewrite Hh, Hf.
  unfold onBleDataEvent.
  destruct (bool_decide (_ ≠ _)); by state_simpl.
Qed.

(** X15. [uBleDataReceive] changes nothing but the contents of the receive
    buffer it reads: the registry keeps its nodes, their instances,
    channels and send timeouts, every node other than the one found for the
    handle and the channel is as it was, receive buffer included, no call
    leaves the module, the instances, the connection records and the event
    queue handle are untouched, and for an unknown handle or channel the
    state is returned as it was, with [U_ERROR_COMMON_INVALID_PARAMETER]
    and no data. *)
Theorem uBleDataReceive_frame s (bleHandle chan len : Z) :
  let out := uBleDataReceive bleHandle chan len s in
  channelKey <$> gpChannelList out.2 = channelKey <$> gpChannelList s
  ∧ txTimeout <$> gpChannelList out.2 = txTimeout <$> gpChannelList s
  ∧ (∀ j : nat,
       (∀ pInst c, pUShortRangePrivateGetInstance bleHandle = Some pInst →
          getSpsChannel (Some pInst) chan (gpChannelList s) ≠ Some (j, c)) →
       gpChannelList out.2 !! j = gpChannelList s !! j)
  ∧ trace out.2 = trace s
  ∧ instances out.2 = instances s
  ∧ heap out.2 = heap s
  ∧ gBleDataEventQueue out.2 = gBleDataEventQueue s
  ∧ ((∀ pInst, pUShortRangePrivateGetInstance bleHandle = Some pInst →
        getSpsChannel (Some pInst) chan (gpChannelList s) = None) →
     out = (U_ERROR_COMMON_INVALID_PARAMETER, [], s)).
Proof.
  intros out. subst out. unfold uBleDataReceive.
  destruct (pUShortRangePrivateGetInstance bleHandle) as [pInst|]; [|done].
  destruct (getSpsChannel (Some pInst) chan (gpChannelList s))
    as [[i pChannel]|] eqn:Hget; [|done].
  pose proof (getSpsChannel_Some _ _ _ _ _ Hget) as [Hi _]. state_simpl.
  split; [by apply (fmap_insert_same _ _ _ pChannel)|].
  split; [by apply (fmap_insert_same _ _ _ pChannel)|].
  split.
  { intros j Hj. apply list_lookup_insert_ne. intros ->.
    by apply (Hj pInst pChannel). }
  repeat split. intros Hnone. specialize (Hnone pInst eq_refl). congruence.
Qed.

End ReceiveMore.

(** ** Public functions *)

Section PublicMore.
Context `{Pf : Platform} `{Pm : PlatformModes} `{Rb : RingBuffer}.

Implicit Types (s : State) (pInst : positive).

(** X16. A send timeout set with [uBleDataSetSendTimeout] is the timeout
    the next [uBleDataSend] on that channel hands to
    [uShortRangeEdmStreamWrite], and the value that the write returns is
    the value of the send. *)
Theorem uBleDataSend_after_SetSendTimeout s
    (lock lock' write bleHandle chan timeout : Z) (pData : list byte) pInst
    (i : nat) (pChannel : uBleDataSpsChannel_t) :
  lock = U_ERROR_COMMON_SUCCESS →
  lock' = U_ERROR_COMMON_SUCCESS →
  pUShortRangePrivateGetInstance bleHandle = Some pInst →
  getSpsChannel (Some pInst) chan (gpChannelList s) = Some (i, pChannel) →
  let set := uBleDataSetSendTimeout lock bleHandle chan timeout s in
  set.1 = U_ERROR_COMMON_SUCCESS
  ∧ uBleDataSend lock' write bleHandle chan pData set.2
    = Returns
        (write,
         emit (uShortRangeEdmStreamWrite (streamHandle (instances s pInst))
                 chan pData timeout) set.2).
Proof.
  intros -> -> Hh Hget set. subst set.
  unfold uBleDataSetSendTimeout, uBleDataSend.
  rewrite !bool_decide_eq_true_2 by done. rewrite Hh, Hget. state_simpl.
  split; [done|].
  rewrite (getSpsChannel_update _ _ _ _ pChannel
             (SpsChannel (channel pChannel) (pInstance pChannel)
                (rxRingBuffer pChannel) timeout) Hget).
  - done.
  - by apply getSpsChannel_Some in Hget as [_ ?].
Qed.

(** X17. [uBleDataSetSendTimeout] answers every failure with
    [U_ERROR_COMMON_UNKNOWN] and an untouched state: the lock not taken,
    an unknown handle, an unknown channel. *)
Theorem uBleDataSetSendTimeout_failure s (lock bleHandle chan timeout : Z) :
  lock ≠ U_ERROR_COMMON_SUCCESS
  ∨ (∀ pInst, pUShortRangePrivateGetInstance bleHandle = Some pInst →
       getSpsChannel (Some pInst) chan (gpChannelList s) = None) →
  uBleDataSetSendTimeout lock bleHandle chan timeout s
  = (U_ERROR_COMMON_UNKNOWN, s).
Proof.
  unfold uBleDataSetSendTimeout. intros [Hlock|Hnone].
  - by rewrite bool_decide_eq_false_2.
  - case_bool_decide; [|done].
    destruct (pUShortRangePrivateGetInstance bleHandle) as [pInst|]; [|done].
    by rewrite (Hnone pInst eq_refl).
Qed.

(** X18. [uBleDataSetSendTimeout] writes one field of one node: the
    registry keeps its nodes, their instances, channels and receive
    buffers, every node other than the one found for the handle and the
    channel is as it was, send timeout included, and nothing else in the
    state changes. *)
Theorem uBleDataSetSendTimeout_frame s (lock bleHandle chan timeout : Z) :
  let out := uBleDataSetSendTimeout lock bleHandle chan timeout s in
  channelKey <$> gpChannelList out.2 = channelKey <$> gpChannelList s
  ∧ rxRingBuffer <$> gpChannelList out.2 = rxRingBuffer <$> gpChannelList s
  ∧ (∀ j : nat,
       (∀ pInst c, pUShortRangePrivateGetInstance bleHandle = Some pInst →
          getSpsChannel (Some pInst) chan (gpChannelList s) ≠ Some (j, c)) →
       gpChannelList out.2 !! j = gpChannelList s !! j)
  ∧ trace out.2 = trace s
  ∧ instances out.2 = instances s
  ∧ heap out.2 = heap s
  ∧ gBleDataEventQueue out.2 = gBleDataEventQueue s.
Proof.
  intros out. subst out. unfold uBleDataSetSendTimeout.
  case_bool_decide; [|done].
  destruct (pUShortRangePrivateGetInstance bleHandle) as [pInst|]; [|done].
  destruct (getSpsChannel (Some pInst) chan (gpChannelList s))
    as [[i pChannel]|] eqn:Hget; [|done].
  pose proof (getSpsChannel_Some _ _ _ _ _ Hget) as [Hi _]. state_simpl.
  split; [by apply (fmap_insert_same _ _ _ pChannel)|].
  split; [by apply (fmap_insert_same _ _ _ pChannel)|].
  split; [|done].
  intros j Hj. apply list_lookup_insert_ne. intros ->.
  by apply (Hj pInst pChannel).
Qed.

(** X19. A channel created by the dispatch of a Connected event can be
    sent on at once: [uBleDataSend] hands the block to
    [uShortRangeEdmStreamWrite] with the default send timeout and returns
    what the write returns. *)
Theorem uBleDataSend_on_new_channel s (p f pInst : positive)
    (pStatus : uBleDataSpsConnection_t) (lock write bleHandle : Z)
    (pData : list byte) :
  U_BLE_DATA_MAX_CONNECTIONS < 2 ^ 32 →
  U_SHORT_RANGE_EVENT_CONNECTED ≠ U_SHORT_RANGE_EVENT_DISCONNECTED →
  Z.of_nat (length (gpChannelList s)) < U_BLE_DATA_MAX_CONNECTIONS →
  heap s !! p = Some pStatus →
  pCallback pStatus = Some f →
  type pStatus = U_SHORT_RANGE_EVENT_CONNECTED →
  statusInstance pStatus = Some pInst →
  getSpsChannel (Some pInst) (dataChannel pStatus) (gpChannelList s) = None →
  lock = U_ERROR_COMMON_SUCCESS →
  pUShortRangePrivateGetInstance bleHandle = Some pInst →
  let s1 := spsEventCallback true (Some p) s in
  uBleDataSend lock write bleHandle (dataChannel pStatus) pData s1
  = Returns
      (write,
       emit (uShortRangeEdmStreamWrite (streamHandle (instances s pInst))
               (dataChannel pStatus) pData
               U_BLE_DATA_DEFAULT_SEND_TIMEOUT_MS) s1).
Proof.
  intros Hmax Hne Hroom Hp Hf Hty Hi Hnone -> Hh s1.
  assert (gpChannelList s1
          = gpChannelList s
            ++ [initSpsChannel (Some pInst) (dataChannel pStatus)]
          ∧ streamHandle (instances s1 pInst)
            = streamHandle (instances s pInst)) as [Hl Hstream].
  { subst s1. unfold spsEventCallback. rewrite Hp, Hf, Hi.
    rewrite (bool_decide_eq_true_2 _ Hty).
    rewrite (bool_decide_eq_false_2
               (type pStatus = U_SHORT_RANGE_EVENT_DISCONNECTED))
      by congruence.
    state_simpl. by rewrite createSpsChannel_room. }
  unfold uBleDataSend. rewrite bool_decide_eq_true_2 by done.
  rewrite Hh, Hl, getSpsChannel_app, Hnone. simpl.
  rewrite isSpsChannel_init. simpl. by rewrite Hstream.
Qed.

End PublicMore.

(** ** Registration functions *)

Section RegistrationMore.
Context `{Pf : Platform} `{Pm : PlatformModes} `{Rb : RingBuffer}.

Implicit Types (s : State) (pInst : positive).

(** The four cleaning calls of [uBleDataSetCallbackConnectionStatus]. *)
Lemma cleanUpConnectionStatus_state s (bleHandle : Z) pInst :
  let s' := cleanUpConnectionStatus bleHandle pInst s in
  trace s'
  = trace s ++
    [uAtClientRemoveUrcHandler (atHandle (instances s pInst)) UUBTACLC;
     uAtClientRemoveUrcHandler (atHandle (instances s pInst)) UUBTACLD;
     uShortRangeConnectionStatusCallback bleHandle false None;
     uShortRangeEdmStreamBtEventCallbackSet
       (streamHandle (instances s pInst)) false None]
  ∧ instances s' pInst
    = setSpsConnectionCallback None None (instances s pInst)
  ∧ (∀ q, q ≠ pInst → instances s' q = instances s q)
  ∧ heap s' = heap s
  ∧ gpChannelList s' = gpChannelList s
  ∧ gBleDataEventQueue s' = gBleDataEventQueue s.
Proof.
  intros s'. subst s'. unfold cleanUpConnectionStatus. state_simpl.
  rewrite <- !app_assoc. repeat split; try done.
  intros q Hq. by rewrite fn_lookup_insert_ne.
Qed.

(** What a link of the chain of registrations leaves alone. *)
Lemma ifSuccess_state (result : Z) (e : effect) (acc : Z * State) :
  let out := ifSuccess result e acc in
  instances out.2 = instances acc.2
  ∧ heap out.2 = heap acc.2
  ∧ gpChannelList out.2 = gpChannelList acc.2
  ∧ gBleDataEventQueue out.2 = gBleDataEventQueue acc.2
  ∧ (trace out.2 = trace acc.2 ∨ trace out.2 = trace acc.2 ++ [e]).
Proof.
  intros out. subst out. unfold ifSuccess.
  case_bool_decide; state_simpl; repeat split; auto.
Qed.

Lemma emits_trace (es : list effect) s :
  trace (foldl (λ s e, emit e s) s es) = trace s ++ es.
Proof.
  revert s. induction es as [|e es IH]; intros s; simpl.
  - by rewrite app_nil_r.
  - rewrite IH. simpl. by rewrite <- app_assoc.
Qed.

Lemma emits_instances (es : list effect) s :
  instances (foldl (λ s e, emit e s) s es) = instances s.
Proof.
  revert s. induction es as [|e es IH]; intros s; simpl; [done|].
  by rewrite IH.
Qed.

(** The chain of registrations stops at the first result that is not
    success, with that result and the calls made so far. *)
Lemma registration_chain (r1 r2 r3 r4 : Z) (e1 e2 e3 e4 : effect) s
    (n : nat) (failed : Z * effect) :
  let registrations := [(r1, e1); (r2, e2); (r3, e3); (r4, e4)] in
  registrations !! n = Some failed →
  failed.1 ≠ U_ERROR_COMMON_SUCCESS →
  Forall (λ ok, ok.1 = U_ERROR_COMMON_SUCCESS) (take n registrations) →
  ifSuccess r4 e4 (ifSuccess r3 e3 (ifSuccess r2 e2 (r1, emit e1 s)))
  = (failed.1,
     foldl (λ s e, emit e s) s (take (S n) registrations).*2).
Proof.
  intros registrations Hn Hfail Hok. subst registrations.
  destruct n as [|[|[|[|n]]]]; simpl in Hn; try done;
    injection Hn as <-; simpl in Hfail, Hok;
    repeat (apply Forall_cons in Hok as [Hx Hok]; simpl in Hx; subst);
    rewrite ?ifSuccess_success;
    rewrite ?ifSuccess_failure by done; done.
Qed.

(** X20. When one of the four registrations of
    [uBleDataSetCallbackConnectionStatus] fails, the later ones are not
    attempted, the result is the code of the one that failed, the four
    cleaning calls are made, and the callback is not left registered: the
    same call can be made again. *)
Theorem uBleDataSetCallbackConnectionStatus_failed_registration s
    (r : connectionStatusResults) (bleHandle : Z) (cb : positive)
    (param : option positive) pInst :
  uShortRangeLock_result r = U_ERROR_COMMON_SUCCESS →
  pUShortRangePrivateGetInstance bleHandle = Some pInst →
  pSpsConnectionCallback (instances s pInst) = None →
  let inst := instances s pInst in
  let registrations :=
    [(setUrcHandler_UUBTACLC_result r,
      uAtClientSetUrcHandler (atHandle inst) UUBTACLC);
     (setUrcHandler_UUBTACLD_result r,
      uAtClientSetUrcHandler (atHandle inst) UUBTACLD);
     (connectionStatusCallback_result r,
      uShortRangeConnectionStatusCallback bleHandle true (Some pInst));
     (btEventCallbackSet_result r,
      uShortRangeEdmStreamBtEventCallbackSet (streamHandle inst) true
        (Some pInst))] in
  ∀ (n : nat) (failed : Z * effect),
    registrations !! n = Some failed →
    failed.1 ≠ U_ERROR_COMMON_SUCCESS →
    (∀ ok, ok ∈ take n registrations → ok.1 = U_ERROR_COMMON_SUCCESS) →
    let out :=
      uBleDataSetCallbackConnectionStatus r bleHandle (Some cb) param s in
    out.1 = failed.1
    ∧ pSpsConnectionCallback (instances out.2 pInst) = None
    ∧ trace out.2
      = trace s ++ (snd <$> take (S n) registrations) ++
        [uAtClientRemoveUrcHandler (atHandle inst) UUBTACLC;
         uAtClientRemoveUrcHandler (atHandle inst) UUBTACLD;
         uShortRangeConnectionStatusCallback bleHandle false None;
         uShortRangeEdmStreamBtEventCallbackSet (streamHandle inst) false
           None].
Proof.
  intros Hlock Hh Hnone inst registrations n failed Hn Hfail Hok out.
  apply Forall_forall in Hok.
  subst out. unfold uBleDataSetCallbackConnectionStatus.
  rewrite (bool_decide_eq_true_2 _ Hlock), Hh, Hnone. cbv zeta.
  set (s1 := withInstance pInst
               (setSpsConnectionCallback (Some cb) param) s).
  fold inst.
  rewrite (registration_chain _ _ _ _ _ _ _ _ s1 n failed Hn Hfail Hok).
  cbn [fst snd]. rewrite bool_decide_eq_true_2 by done. cbn [fst snd].
  match goal with
  | |- context [cleanUpConnectionStatus _ _ ?x] => set (s2 := x)
  end.
  assert (instances s2 = instances s1 ∧ trace s2 = trace s1 ++ _)
    as [Hi2 Ht2] by (split; [apply emits_instances|apply emits_trace]).
  destruct (cleanUpConnectionStatus_state s2 bleHandle pInst)
    as (Ht & Hi & _).
  split; [done|]. split.
  - rewrite Hi. done.
  - rewrite Ht, Ht2, Hi2. subst s1 inst. state_simpl.
    by rewrite <- !app_assoc.
Qed.

(** X21. Registering a connection callback and clearing it again: both
    calls return success, the four registrations are followed by the four
    cleaning calls, and the instance ends with no callback and no callback
    parameter. *)
Theorem uBleDataSetCallbackConnectionStatus_set_clear s
    (r r' : connectionStatusResults) (bleHandle : Z) (cb : positive)
    (param : option positive) pInst :
  uShortRangeLock_result r = U_ERROR_COMMON_SUCCESS →
  uShortRangeLock_result r' = U_ERROR_COMMON_SUCCESS →
  pUShortRangePrivateGetInstance bleHandle = Some pInst →
  pSpsConnectionCallback (instances s pInst) = None →
  setUrcHandler_UUBTACLC_result r = U_ERROR_COMMON_SUCCESS →
  setUrcHandler_UUBTACLD_result r = U_ERROR_COMMON_SUCCESS →
  connectionStatusCallback_result r = U_ERROR_COMMON_SUCCESS →
  btEventCallbackSet_result r = U_ERROR_COMMON_SUCCESS →
  let inst := instances s pInst in
  let set :=
    uBleDataSetCallbackConnectionStatus r bleHandle (Some cb) param s in
  let clear :=
    uBleDataSetCallbackConnectionStatus r' bleHandle None None set.2 in
  set.1 = U_ERROR_COMMON_SUCCESS
  ∧ clear.1 = U_ERROR_COMMON_SUCCESS
  ∧ instances clear.2 pInst = setSpsConnectionCallback None None inst
  ∧ trace clear.2
    = trace s ++
      [uAtClientSetUrcHandler (atHandle inst) UUBTACLC;
       uAtClientSetUrcHandler (atHandle inst) UUBTACLD;
       uShortRangeConnectionStatusCallback bleHandle true (Some pInst);
       uShortRangeEdmStreamBtEventCallbackSet (streamHandle inst) true
         (Some pInst);
       uAtClientRemoveUrcHandler (atHandle inst) UUBTACLC;
       uAtClientRemoveUrcHandler (atHandle inst) UUBTACLD;
       uShortRangeConnectionStatusCallback bleHandle false None;
       uShortRangeEdmStreamBtEventCallbackSet (streamHandle inst) false
         None].
Proof.
  intros Hlock Hlock' Hh Hnone H1 H2 H3 H4 inst set clear.
  subst clear set inst.
  unfold uBleDataSetCallbackConnectionStatus.
  rewrite (bool_decide_eq_true_2 _ Hlock), (bool_decide_eq_true_2 _ Hlock').
  rewrite Hh, Hnone. cbv zeta.
  rewrite H1, H2, H3, H4, !ifSuccess_success. cbn [fst snd].
  rewrite (bool_decide_eq_false_2 (U_ERROR_COMMON_SUCCESS ≠ _)) by tauto.
  state_simpl. unfold cleanUpConnectionStatus. state_simpl.
  rewrite <- !app_assoc. done.
Qed.

Lemma cleanUpConnectionStatus_frame s (bleHandle : Z) pInst :
  let s' := cleanUpConnectionStatus bleHandle pInst s in
  heap s' = heap s
  ∧ gpChannelList s' = gpChannelList s
  ∧ gBleDataEventQueue s' = gBleDataEventQueue s
  ∧ ∀ q, setSpsConnectionCallback None None (instances s' q)
         = setSpsConnectionCallback None None (instances s q).
Proof.
  destruct (cleanUpConnectionStatus_state s bleHandle pInst)
    as (_ & Hi & Hother & Hh & Hl & Hq).
  repeat split; try done. intros q.
  destruct (decide (q = pInst)) as [->|Hne].
  - by rewrite Hi.
  - by rewrite Hother.
Qed.

(** The registering branch of [uBleDataSetCallbackConnectionStatus], from
    the state [s1] in which the callback is stored. *)
Lemma registrations_frame (r1 r2 r3 r4 : Z) (e1 e2 e3 e4 : effect) s1
    (bleHandle : Z) pInst :
  let a4 :=
    ifSuccess r4 e4 (ifSuccess r3 e3 (ifSuccess r2 e2 (r1, emit e1 s1))) in
  let out :=
    if bool_decide (a4.1 ≠ U_ERROR_COMMON_SUCCESS)
    then (a4.1, cleanUpConnectionStatus bleHandle pInst a4.2)
    else a4 in
  heap out.2 = heap s1
  ∧ gpChannelList out.2 = gpChannelList s1
  ∧ gBleDataEventQueue out.2 = gBleDataEventQueue s1
  ∧ ∀ q, setSpsConnectionCallback None None (instances out.2 q)
         = setSpsConnectionCallback None None (instances s1 q).
Proof.
  intros a4 out.
  destruct (ifSuccess_state r2 e2 (r1, emit e1 s1))
    as (Hi2 & Hh2 & Hl2 & Hq2 & _).
  destruct (ifSuccess_state r3 e3 (ifSuccess r2 e2 (r1, emit e1 s1)))
    as (Hi3 & Hh3 & Hl3 & Hq3 & _).
  destruct (ifSuccess_state r4 e4
              (ifSuccess r3 e3 (ifSuccess r2 e2 (r1, emit e1 s1))))
    as (Hi4 & Hh4 & Hl4 & Hq4 & _).
  fold a4 in Hi4, Hh4, Hl4, Hq4.
  assert (instances a4.2 = instances s1 ∧ heap a4.2 = heap s1
          ∧ gpChannelList a4.2 = gpChannelList s1
          ∧ gBleDataEventQueue a4.2 = gBleDataEventQueue s1)
    as (Hi & Hh & Hl & Hq).
  { rewrite Hi4, Hi3, Hi2, Hh4, Hh3, Hh2, Hl4, Hl3, Hl2, Hq4, Hq3, Hq2.
    done. }
  subst out. case_bool_decide; cbn [snd].
  - destruct (cleanUpConnectionStatus_frame a4.2 bleHandle pInst)
      as (Hh' & Hl' & Hq' & Hi').
    rewrite Hh', Hl', Hq', Hh, Hl, Hq. repeat split.
    intros q. by rewrite Hi', Hi.
  - rewrite Hh, Hl, Hq, Hi. done.
Qed.

(** The same branch leaves every instance but [pInst] as it was. *)
Lemma registrations_other_instances (r1 r2 r3 r4 : Z)
    (e1 e2 e3 e4 : effect) s1 (bleHandle : Z) pInst :
  let a4 :=
    ifSuccess r4 e4 (ifSuccess r3 e3 (ifSuccess r2 e2 (r1, emit e1 s1))) in
  let out :=
    if bool_decide (a4.1 ≠ U_ERROR_COMMON_SUCCESS)
    then (a4.1, cleanUpConnectionStatus bleHandle pInst a4.2)
    else a4 in
  ∀ q, q ≠ pInst → instances out.2 q = instances s1 q.
Proof.
  intros a4 out q Hq.
  destruct (ifSuccess_state r2 e2 (r1, emit e1 s1)) as (Hi2 & _).
  destruct (ifSuccess_state r3 e3 (ifSuccess r2 e2 (r1, emit e1 s1)))
    as (Hi3 & _).
  destruct (ifSuccess_state r4 e4
              (ifSuccess r3 e3 (ifSuccess r2 e2 (r1, emit e1 s1))))
    as (Hi4 & _).
  fold a4 in Hi4.
  assert (instances a4.2 = instances s1) as Hi
    by (by rewrite Hi4, Hi3, Hi2).
  subst out. case_bool_decide; cbn [snd].
  - destruct (cleanUpConnectionStatus_state a4.2 bleHandle pInst)
      as (_ & _ & Hother & _).
    by rewrite (Hother q Hq), Hi.
  - by rewrite Hi.
Qed.

(** X22. [uBleDataSetCallbackConnectionStatus] writes the two callback
    fields of one instance and nothing else in the state: every instance
    other than the one of the handle is as it was, the instance of the
    handle keeps every field but the two, and the connection records, the
    registry and the event queue handle are untouched.  In particular a
    record waiting in the pending slot stays there, allocated, when the
    callback is cleared. *)
Theorem uBleDataSetCallbackConnectionStatus_frame s
    (r : connectionStatusResults) (bleHandle : Z)
    (cb param : option positive) :
  let out := uBleDataSetCallbackConnectionStatus r bleHandle cb param s in
  heap out.2 = heap s
  ∧ gpChannelList out.2 = gpChannelList s
  ∧ gBleDataEventQueue out.2 = gBleDataEventQueue s
  ∧ (∀ q, setSpsConnectionCallback None None (instances out.2 q)
          = setSpsConnectionCallback None None (instances s q))
  ∧ (∀ q, pUShortRangePrivateGetInstance bleHandle ≠ Some q →
       instances out.2 q = instances s q).
Proof.
  intros out. subst out. unfold uBleDataSetCallbackConnectionStatus.
  case_bool_decide; [|done].
  destruct (pUShortRangePrivateGetInstance bleHandle) as [pInst|]; [|done].
  destruct cb as [cb|], (pSpsConnectionCallback (instances s pInst)) as [old|];
    try done.
  - destruct (registrations_frame
                (setUrcHandler_UUBTACLC_result r)
                (setUrcHandler_UUBTACLD_result r)
                (connectionStatusCallback_result r)
                (btEventCallbackSet_result r)
                (uAtClientSetUrcHandler (atHandle (instances s pInst))
                   UUBTACLC)
                (uAtClientSetUrcHandler (atHandle (instances s pInst))
                   UUBTACLD)
                (uShortRangeConnectionStatusCallback bleHandle true
                   (Some pInst))
                (uShortRangeEdmStreamBtEventCallbackSet
                   (streamHandle (instances s pInst)) true (Some pInst))
                (withInstance pInst
                   (setSpsConnectionCallback (Some cb) param) s)
                bleHandle pInst) as (Hh & Hl & Hq & Hi).
    split; [exact Hh|]. split; [exact Hl|]. split; [exact Hq|]. split.
    + intros q. etransitivity; [exact (Hi q)|]. simpl.
      destruct (decide (q = pInst)) as [->|Hne].
      * by rewrite fn_lookup_insert.
      * by rewrite fn_lookup_insert_ne.
    + intros q Hq'. assert (q ≠ pInst) as Hne by congruence.
      etransitivity;
        [by apply (registrations_other_instances
                     (setUrcHandler_UUBTACLC_result r)
                     (setUrcHandler_UUBTACLD_result r)
                     (connectionStatusCallback_result r)
                     (btEventCallbackSet_result r))|].
      simpl. by rewrite fn_lookup_insert_ne.
  - destruct (cleanUpConnectionStatus_frame s bleHandle pInst)
      as (Hh & Hl & Hq & Hi).
    destruct (cleanUpConnectionStatus_state s bleHandle pInst)
      as (_ & _ & Hother & _).
    repeat split; try done.
    intros q Hq'. apply Hother. congruence.
Qed.

(** X23. Registering a data-available callback opens the event queue only
    when there is none: with a queue open the handle is kept and
    [uPortEventQueueOpen] is not called; with none, the handle that
    [uPortEventQueueOpen] returns, if not negative, is the new handle. *)
Theorem uBleDataSetDataAvailableCallback_opens_once s
    (lock opened hooked bleHandle : Z) (cb : positive)
    (param : option positive) pInst :
  lock = U_ERROR_COMMON_SUCCESS →
  pUShortRangePrivateGetInstance bleHandle = Some pInst →
  pBtDataAvailableCallback (instances s pInst) = None →
  let hook :=
    uShortRangeEdmStreamDataEventCallbackSet
      (streamHandle (instances s pInst)) true (Some pInst) in
  let out :=
    uBleDataSetDataAvailableCallback lock opened hooked bleHandle (Some cb)
      param s in
  (gBleDataEventQueue s ≠ U_ERROR_COMMON_NOT_INITIALISED →
   gBleDataEventQueue out.2 = gBleDataEventQueue s
   ∧ trace out.2 = trace s ++ [hook])
  ∧ (gBleDataEventQueue s = U_ERROR_COMMON_NOT_INITIALISED →
     0 ≤ opened →
     gBleDataEventQueue out.2 = opened
     ∧ trace out.2 = trace s ++ [uPortEventQueueOpen; hook]).
Proof.
  intros -> Hh Hnone hook out. subst out hook.
  unfold uBleDataSetDataAvailableCallback.
  rewrite bool_decide_eq_true_2 by done. rewrite Hh, Hnone. state_simpl.
  split.
  - intros Hopen. rewrite bool_decide_eq_false_2 by done. by state_simpl.
  - intros Hclosed Hpos. rewrite bool_decide_eq_true_2 by done.
    rewrite (bool_decide_eq_false_2 (opened < 0)) by lia.
    state_simpl. by rewrite <- !app_assoc.
Qed.

(** X24. There is one event queue for all instances.  Clearing the
    data-available callback of one instance closes it, while another
    instance keeps its callback: that instance is left with
    [U_ERROR_COMMON_NOT_INITIALISED] for a queue handle. *)
Theorem uBleDataSetDataAvailableCallback_closes_shared_queue s
    (lock opened hooked bleHandle : Z) (pInst other f : positive) :
  lock = U_ERROR_COMMON_SUCCESS →
  pUShortRangePrivateGetInstance bleHandle = Some pInst →
  other ≠ pInst →
  is_Some (pBtDataAvailableCallback (instances s pInst)) →
  pBtDataAvailableCallback (instances s other) = Some f →
  gBleDataEventQueue s ≠ U_ERROR_COMMON_NOT_INITIALISED →
  let out :=
    uBleDataSetDataAvailableCallback lock opened hooked bleHandle None None
      s in
  gBleDataEventQueue out.2 = U_ERROR_COMMON_NOT_INITIALISED
  ∧ pBtDataAvailableCallback (instances out.2 other) = Some f
  ∧ trace out.2
    = trace s ++
      [uShortRangeEdmStreamDataEventCallbackSet
         (streamHandle (instances s pInst)) false None;
       uPortEventQueueClose (gBleDataEventQueue s)].
Proof.
  intros -> Hh Hother [g Hg] Hf Hopen out. subst out.
  unfold uBleDataSetDataAvailableCallback.
  rewrite bool_decide_eq_true_2 by done. rewrite Hh, Hg. state_simpl.
  rewrite bool_decide_eq_true_2 by done. state_simpl.
  rewrite fn_lookup_insert_ne by done. rewrite <- !app_assoc. done.
Qed.

(** X25. The deprecated data callback and the data-available callback
    share one parameter field, and the deprecated callback is the one that
    gets the data.  After [uBleDataSetCallbackData] a block is passed to
    the deprecated callback with its own parameter; after a
    [uBleDataSetDataAvailableCallback] on top of it, the block still goes
    to the deprecated callback, with the parameter of the data-available
    callback. *)
Theorem data_callbacks_share_parameter s
    (lock lock' hooked hooked' opened bleHandle handle chan : Z)
    (pData : list byte) (f cb : positive) (param param' : option positive)
    pInst :
  lock = U_ERROR_COMMON_SUCCESS →
  lock' = U_ERROR_COMMON_SUCCESS →
  pUShortRangePrivateGetInstance bleHandle = Some pInst →
  pBtDataCallback (instances s pInst) = None →
  pBtDataAvailableCallback (instances s pInst) = None →
  let s1 :=
    (uBleDataSetCallbackData lock hooked bleHandle (Some f) param s).2 in
  let s2 :=
    (uBleDataSetDataAvailableCallback lock' opened hooked' bleHandle
       (Some cb) param' s1).2 in
  trace (dataCallback handle chan pData (Some pInst) s1)
  = trace s1 ++ [callBtDataCallback f chan pData param]
  ∧ trace (dataCallback handle chan pData (Some pInst) s2)
    = trace s2 ++ [callBtDataCallback f chan pData param'].
Proof.
  intros -> -> Hh Hdata Hnone s1 s2.
  assert (pBtDataCallback (instances s1 pInst) = Some f
          ∧ pBtDataCallbackParameter (instances s1 pInst) = param
          ∧ pBtDataAvailableCallback (instances s1 pInst) = None)
    as (Hf1 & Hp1 & Hnone1).
  { subst s1. unfold uBleDataSetCallbackData.
    rewrite bool_decide_eq_true_2 by done. rewrite Hh, Hdata.
    unfold setBtDataCallback. by state_simpl. }
  clearbody s1.
  assert (pBtDataCallback (instances s2 pInst) = Some f
          ∧ pBtDataCallbackParameter (instances s2 pInst) = param')
    as (Hf2 & Hp2).
  { subst s2. unfold uBleDataSetDataAvailableCallback.
    rewrite bool_decide_eq_true_2 by done. rewrite Hh, Hnone1.
    case_bool_decide; by state_simpl. }
  clearbody s2.
  destruct (dataCallback_deprecated_first s1 handle chan pData pInst f Hf1)
    as [_ ->].
  destruct (dataCallback_deprecated_first s2 handle chan pData pInst f Hf2)
    as [_ ->].
  by rewrite Hp1, Hp2.
Qed.

(** X26. [uBleDataPrivateDeinit] empties the registry and resets the queue
    handle, closing the queue if and only if one was open; it leaves the
    instances, with their callbacks and pending slots, and the connection
    records as they are; and a second call changes nothing. *)
Theorem uBleDataPrivateDeinit_state s :
  let s' := uBleDataPrivateDeinit s in
  gpChannelList s' = []
  ∧ gBleDataEventQueue s' = U_ERROR_COMMON_NOT_INITIALISED
  ∧ trace s'
    = trace s ++
      (if bool_decide (gBleDataEventQueue s = U_ERROR_COMMON_NOT_INITIALISED)
       then [] else [uPortEventQueueClose (gBleDataEventQueue s)])
  ∧ instances s' = instances s
  ∧ heap s' = heap s
  ∧ uBleDataPrivateDeinit s' = s'.
Proof.
  intros s'. subst s'. unfold uBleDataPrivateDeinit.
  destruct (decide (gBleDataEventQueue s = U_ERROR_COMMON_NOT_INITIALISED))
    as [Hq|Hq].
  - rewrite (bool_decide_eq_false_2 (_ ≠ _)) by tauto.
    rewrite (bool_decide_eq_true_2 _ Hq). state_simpl.
    rewrite (bool_decide_eq_false_2 (_ ≠ _)) by tauto.
    rewrite app_nil_r. done.
  - rewrite (bool_decide_eq_true_2 (_ ≠ _)) by done.
    rewrite (bool_decide_eq_false_2 _ Hq). state_simpl.
    rewrite (bool_decide_eq_false_2 (_ ≠ _)) by tauto. done.
Qed.

End RegistrationMore.

(** ** Connecting *)

Lemma cString_length (buffer : list byte) :
  (length (cString buffer) ≤ length buffer)%nat.
Proof.
  induction buffer as [|b rest IH]; simpl; [done|].
  destruct (Byte.eqb b x00); simpl; lia.
Qed.

Lemma cString_terminated (front back : list byte) :
  cString (front ++ x00 :: back) = cString front.
Proof.
  induction front as [|b rest IH]; simpl; [done|].
  destruct (Byte.eqb b x00); [done|]. by rewrite IH.
Qed.

Lemma connectUrl_bytes (pAddress : list byte) :
  connectUrl pAddress
  = [x73; x70; x73; x3a; x2f; x2f] ++ take 13 pAddress ++ [x00].
Proof. reflexivity. Qed.

Section ConnectMore.
Context `{Pf : Platform} `{Pm : PlatformModes}.

(** X27. In command or EDM mode, on a valid handle, [uBleDataConnectSps]
    sends one [AT+UDCP] command and returns what [uAtClientUnlock]
    returns.  The string it writes is "sps://" followed by the address up
    to its terminator or, if that does not come within 13 characters, by
    the first 13 characters of the address; the buffer of 20 bytes always
    holds its terminator. *)
Theorem uBleDataConnectSps_url (lock unlock mode bleHandle : Z)
    (pAddress : list byte) (pInst : positive) :
  lock = U_ERROR_COMMON_SUCCESS →
  pUShortRangePrivateGetInstance bleHandle = Some pInst →
  mode = U_SHORT_RANGE_MODE_COMMAND ∨ mode = U_SHORT_RANGE_MODE_EDM →
  (13 ≤ length pAddress)%nat →
  ∃ url,
    uBleDataConnectSps lock unlock mode bleHandle pAddress
    = (unlock,
       [uAtClientLock; uAtClientCommandStart AT_UDCP;
        uAtClientWriteString url; uAtClientCommandStop;
        uAtClientResponseStart; uAtClientReadInt; uAtClientResponseStop;
        uAtClientUnlock])
    ∧ length url = 20%nat
    ∧ cString url
      = [x73; x70; x73; x3a; x2f; x2f] ++ cString (take 13 pAddress)
    ∧ (length (cString url) ≤ 19)%nat.
Proof.
  intros -> Hh Hmode Hlen. exists (connectUrl pAddress).
  assert (cString (connectUrl pAddress)
          = [x73; x70; x73; x3a; x2f; x2f] ++ cString (take 13 pAddress))
    as Hurl.
  { rewrite connectUrl_bytes. simpl. by rewrite cString_terminated. }
  split; [|split; [|split; [done|]]].
  - unfold uBleDataConnectSps. rewrite bool_decide_eq_true_2 by done.
    rewrite Hh.
    destruct Hmode as [-> | ->].
    + by rewrite bool_decide_eq_true_2.
    + rewrite (bool_decide_eq_true_2 (_ = U_SHORT_RANGE_MODE_EDM)) by done.
      by rewrite orb_true_r.
  - rewrite connectUrl_bytes, !length_app, length_take. cbn [length]. lia.
  - rewrite Hurl, length_app. cbn [length].
    pose proof (cString_length (take 13 pAddress)) as Hc.
    rewrite length_take in Hc. lia.
Qed.

(** X28. [uBleDataConnectSps] makes no call to the AT client unless the
    lock was taken, the handle is known and the instance is in command or
    EDM mode; the result then is [U_ERROR_COMMON_NOT_INITIALISED],
    [U_ERROR_COMMON_INVALID_PARAMETER] or
    [U_SHORT_RANGE_ERROR_INVALID_MODE], in that order of tests. *)
Theorem uBleDataConnectSps_refused (lock unlock mode bleHandle : Z)
    (pAddress : list byte) :
  ¬ (lock = U_ERROR_COMMON_SUCCESS
     ∧ is_Some (pUShortRangePrivateGetInstance bleHandle)
     ∧ (mode = U_SHORT_RANGE_MODE_COMMAND
        ∨ mode = U_SHORT_RANGE_MODE_EDM)) →
  uBleDataConnectSps lock unlock mode bleHandle pAddress
  = (if bool_decide (lock ≠ U_ERROR_COMMON_SUCCESS)
     then U_ERROR_COMMON_NOT_INITIALISED
     else match pUShortRangePrivateGetInstance bleHandle with
          | Some _ => U_SHORT_RANGE_ERROR_INVALID_MODE
          | None => U_ERROR_COMMON_INVALID_PARAMETER
          end,
     []).
Proof.
  intros Hno. unfold uBleDataConnectSps.
  destruct (decide (lock = U_ERROR_COMMON_SUCCESS)) as [Hlock|Hlock].
  - rewrite (bool_decide_eq_true_2 _ Hlock).
    rewrite (bool_decide_eq_false_2 (_ ≠ _)) by tauto.
    destruct (pUShortRangePrivateGetInstance bleHandle) as [pInst|]; [|done].
    rewrite !bool_decide_eq_false_2; [done| |];
      intros Hmode; apply Hno; eauto.
  - rewrite (bool_decide_eq_false_2 _ Hlock).
    by rewrite (bool_decide_eq_true_2 (_ ≠ _)).
Qed.

End ConnectMore.

(** ** The further properties at concrete inputs *)

Ltac side_condition :=
  first [ reflexivity | lia | (simpl; lia) | (vm_compute; reflexivity)
        | (vm_compute; discriminate) | (eexists; reflexivity) ].

Lemma createSpsChannel_found_witness :
  getSpsChannel (Some 1%positive) 2
    (@createSpsChannel smallPlatform specRingBuffer true (Some 1%positive) 2
       [specChannel 1 [x01]])
  = Some (1%nat, specChannel 2 []).
Proof.
  apply (createSpsChannel_found (Pf := smallPlatform) (Rb := specRingBuffer)
           (Some 1%positive) 2 [specChannel 1 [x01]]); side_condition.
Defined.

Lemma createSpsChannel_duplicate_witness :
  getSpsChannel (Some 1%positive) 1
    (@createSpsChannel smallPlatform specRingBuffer true (Some 1%positive) 1
       [specChannel 1 [x01]])
  = Some (0%nat, specChannel 1 [x01]).
Proof.
  apply (createSpsChannel_duplicate (Pf := smallPlatform)
           (Rb := specRingBuffer) (Some 1%positive) 1 [specChannel 1 [x01]]
           0%nat (specChannel 1 [x01])); side_condition.
Defined.

Lemma deleteSpsChannel_absent_witness :
  deleteSpsChannel (Some 1%positive) 3 [specChannel 1 []; specChannel 2 []]
  = [specChannel 1 []; specChannel 2 []].
Proof.
  apply (deleteSpsChannel_absent (Rb := specRingBuffer)); side_condition.
Defined.

Lemma deleteSpsChannel_found_witness :
  deleteSpsChannel (Some 1%positive) 2
    [specChannel 1 []; specChannel 2 []; specChannel 3 []]
  = [specChannel 1 []; specChannel 3 []].
Proof.
  apply (deleteSpsChannel_found (Rb := specRingBuffer) (Some 1%positive) 2
           [specChannel 1 []; specChannel 2 []; specChannel 3 []] 1%nat
           (specChannel 2 [])); side_condition.
Defined.

Lemma createSpsChannel_deleteSpsChannel_witness :
  deleteSpsChannel (Some 1%positive) 2
    (@createSpsChannel smallPlatform specRingBuffer true (Some 1%positive) 2
       [specChannel 1 [x01]])
  = [specChannel 1 [x01]].
Proof.
  apply (createSpsChannel_deleteSpsChannel (Pf := smallPlatform)
           (Rb := specRingBuffer)); side_condition.
Defined.

Lemma correlator_pair_dispatched_witness :
  ∃ registry,
    trace
      (@spsEventCallback smallPlatform specRingBuffer true (Some 7%positive)
         (atConnectionEvent None 7 0 1%positive
            (@btEdmConnectionCallback smallPlatform specRingBuffer
               (Some (7%positive, junkRecord)) 4 0 3 true 240 [xaa; xbb]
               (Some 1%positive) (stateOf listeningInstance ∅ []))))
    = [uAtClientCallback (Some 9%positive) (Some 7%positive);
       callSpsConnectionCallback 5%positive 7 [xaa; xbb] 0 3 240 None
         registry].
Proof.
  destruct (correlator_pair_dispatched (Pf := smallPlatform)
              (Rb := specRingBuffer) true (stateOf listeningInstance ∅ [])
              1%positive 9%positive 5%positive 7%positive junkRecord None 7
              0 0 3 240 4 true [xaa; xbb])
    as [(Hcalled & _) _]; [side_condition..|].
  exact Hcalled.
Defined.

Lemma correlator_same_side_twice_witness :
  connHandle <$>
    heap
      (@btEdmConnectionCallback smallPlatform specRingBuffer None 4 1 3 true
         240 [xaa; xbb] (Some 1%positive)
         (@btEdmConnectionCallback smallPlatform specRingBuffer
            (Some (7%positive, junkRecord)) 4 0 3 true 240 [xaa; xbb]
            (Some 1%positive) (stateOf listeningInstance ∅ []))) !! 7%positive
  = Some 99.
Proof.
  destruct (correlator_same_side_twice (Pf := smallPlatform)
              (Rb := specRingBuffer) (stateOf listeningInstance ∅ [])
              1%positive 9%positive 5%positive 7%positive junkRecord None 7
              8 0 0 1 3 3 240 240 4 true [xaa; xbb] [xaa; xbb])
    as [(_ & Hrecord) _]; [side_condition..|].
  rewrite Hrecord. reflexivity.
Defined.

Lemma correlator_after_failed_malloc_witness :
  connHandle <$>
    heap
      (@btEdmConnectionCallback smallPlatform specRingBuffer None 4 0 5 true
         240 [xcc; xdd] (Some 1%positive)
         (atConnectionEvent (Some (7%positive, junkRecord)) 7 0 1%positive
            (@btEdmConnectionCallback smallPlatform specRingBuffer None 4 0 3
               true 240 [xaa; xbb] (Some 1%positive)
               (stateOf listeningInstance ∅ [])))) !! 7%positive
  = Some 7.
Proof.
  destruct (correlator_after_failed_malloc (Pf := smallPlatform)
              (Rb := specRingBuffer) (stateOf listeningInstance ∅ [])
              1%positive 9%positive 5%positive 7%positive junkRecord None 7
              0 0 0 3 5 240 240 4 true [xaa; xbb] [xcc; xdd])
    as (_ & _ & _ & Hrecord); [side_condition..|].
  rewrite Hrecord. reflexivity.
Defined.

Lemma correlator_report_before_dispatch_witness :
  trace
    (atConnectionEvent None 8 0 1%positive
       (atConnectionEvent None 7 0 1%positive
          (@btEdmConnectionCallback smallPlatform specRingBuffer
             (Some (7%positive, junkRecord)) 4 0 3 true 240 [xaa; xbb]
             (Some 1%positive) (stateOf listeningInstance ∅ []))))
  = [uAtClientCallback (Some 9%positive) (Some 7%positive);
     uAtClientCallback (Some 9%positive) (Some 7%positive)].
Proof.
  destruct (correlator_report_before_dispatch (Pf := smallPlatform)
              (Rb := specRingBuffer) true (stateOf listeningInstance ∅ [])
              1%positive 9%positive 5%positive 7%positive junkRecord None
              None 7 8 0 0 3 240 4 true [xaa; xbb])
    as (_ & Htrace & _); [side_condition..|].
  exact Htrace.
Defined.

Lemma spsEventCallback_without_callback_witness :
  gpChannelList
    (@spsEventCallback smallPlatform specRingBuffer true (Some 7%positive)
       (stateOf idleInstance
          {[7%positive :=
              SpsConnection (Some 1%positive) 7 0 [xaa; xbb] 3 240 None None]}
          [specChannel 1 []]))
  = [specChannel 1 []].
Proof.
  destruct (spsEventCallback_without_callback (Pf := smallPlatform)
              (Rb := specRingBuffer) true
              (stateOf idleInstance
                 {[7%positive :=
                     SpsConnection (Some 1%positive) 7 0 [xaa; xbb] 3 240
                       None None]}
                 [specChannel 1 []])
              7%positive
              (SpsConnection (Some 1%positive) 7 0 [xaa; xbb] 3 240 None None))
    as (_ & Hregistry & _); [side_condition..|].
  exact Hregistry.
Defined.

Lemma dataCallback_after_refused_channel_witness :
  dataCallback 0 3 [x01] (Some 1%positive)
    (@spsEventCallback smallPlatform specRingBuffer true (Some 7%positive)
       (stateOf listeningInstance {[7%positive := completedRecord 0 3]}
          [specChannel 1 []; specChannel 2 []]))
  = @spsEventCallback smallPlatform specRingBuffer true (Some 7%positive)
      (stateOf listeningInstance {[7%positive := completedRecord 0 3]}
         [specChannel 1 []; specChannel 2 []]).
Proof.
  destruct (dataCallback_after_refused_channel (Pf := smallPlatform)
              (Rb := specRingBuffer)
              (stateOf listeningInstance {[7%positive := completedRecord 0 3]}
                 [specChannel 1 []; specChannel 2 []])
              7%positive 5%positive 1%positive (completedRecord 0 3) true 0
              [x01])
    as (_ & _ & Hdropped); [side_condition..|].
  exact Hdropped.
Defined.

Lemma onBleDataEvent_after_disable_witness :
  onBleDataEvent (BleDataEvent 3 1%positive)
    (@uBleDataSetDataAvailableCallback smallPlatform specRingBuffer 0 0 0 1
       None None (stateOf listeningInstance ∅ [])).2
  = (@uBleDataSetDataAvailableCallback smallPlatform specRingBuffer 0 0 0 1
       None None (stateOf listeningInstance ∅ [])).2.
Proof.
  apply (onBleDataEvent_after_disable (Pf := smallPlatform)
           (Rb := specRingBuffer) (stateOf listeningInstance ∅ []) 0 0 0 1 3
           1%positive); side_condition.
Defined.

Lemma uBleDataSend_after_SetSendTimeout_witness :
  @uBleDataSend smallPlatform specRingBuffer 0 0 1 3 [x01]
    (@uBleDataSetSendTimeout smallPlatform smallModes specRingBuffer 0 1 3
       500 (stateOf listeningInstance ∅ [specChannel 3 []])).2
  = Returns
      (0,
       emit (uShortRangeEdmStreamWrite 4 3 [x01] 500)
         (@uBleDataSetSendTimeout smallPlatform smallModes specRingBuffer 0 1
            3 500 (stateOf listeningInstance ∅ [specChannel 3 []])).2).
Proof.
  destruct (uBleDataSend_after_SetSendTimeout (Pf := smallPlatform)
              (Pm := smallModes) (Rb := specRingBuffer)
              (stateOf listeningInstance ∅ [specChannel 3 []]) 0 0 0 1 3 500
              [x01] 1%positive 0%nat (specChannel 3 []))
    as [_ Hsend]; [side_condition..|].
  exact Hsend.
Defined.

Lemma uBleDataSetSendTimeout_failure_witness :
  @uBleDataSetSendTimeout smallPlatform smallModes specRingBuffer 0 1 3 500
    (stateOf listeningInstance ∅ [specChannel 1 []])
  = (-1, stateOf listeningInstance ∅ [specChannel 1 []]).
Proof.
  apply (uBleDataSetSendTimeout_failure (Pf := smallPlatform)
           (Pm := smallModes) (Rb := specRingBuffer)).
  right. intros pInst [= <-]. reflexivity.
Defined.

Lemma uBleDataSend_on_new_channel_witness :
  @uBleDataSend smallPlatform specRingBuffer 0 0 1 3 [x01]
    (@spsEventCallback smallPlatform specRingBuffer true (Some 7%positive)
       (stateOf listeningInstance {[7%positive := completedRecord 0 3]}
          [specChannel 1 []]))
  = Returns
      (0,
       emit (uShortRangeEdmStreamWrite 4 3 [x01] 100)
         (@spsEventCallback smallPlatform specRingBuffer true
            (Some 7%positive)
            (stateOf listeningInstance {[7%positive := completedRecord 0 3]}
               [specChannel 1 []]))).
Proof.
  apply (uBleDataSend_on_new_channel (Pf := smallPlatform)
           (Rb := specRingBuffer)
           (stateOf listeningInstance {[7%positive := completedRecord 0 3]}
              [specChannel 1 []])
           7%positive 5%positive 1%positive (completedRecord 0 3) 0 0 1
           [x01]); side_condition.
Defined.

Lemma uBleDataSetCallbackConnectionStatus_failed_registration_witness :
  (@uBleDataSetCallbackConnectionStatus smallPlatform specRingBuffer
     (ConnectionStatusResults 0 0 (-1) 0 0) 1 (Some 5%positive) None
     (stateOf idleInstance ∅ [])).1 = -1
  ∧ pSpsConnectionCallback
      (instances
         (@uBleDataSetCallbackConnectionStatus smallPlatform specRingBuffer
            (ConnectionStatusResults 0 0 (-1) 0 0) 1 (Some 5%positive) None
            (stateOf idleInstance ∅ [])).2 1%positive) = None.
Proof.
  destruct (uBleDataSetCallbackConnectionStatus_failed_registration
              (Pf := smallPlatform) (Rb := specRingBuffer)
              (stateOf idleInstance ∅ [])
              (ConnectionStatusResults 0 0 (-1) 0 0) 1 5%positive None
              1%positive eq_refl eq_refl eq_refl 1%nat
              (-1, uAtClientSetUrcHandler (Some 9%positive) UUBTACLD)
              eq_refl)
    as (Hresult & Hcleared & _).
  - simpl. lia.
  - intros ok Hok. simpl in Hok.
    apply elem_of_cons in Hok as [->|Hok]; [reflexivity|].
    by apply elem_of_nil in Hok.
  - split; [exact Hresult|exact Hcleared].
Defined.

Lemma uBleDataSetCallbackConnectionStatus_set_clear_witness :
  (@uBleDataSetCallbackConnectionStatus smallPlatform specRingBuffer
     (ConnectionStatusResults 0 0 0 0 0) 1 None None
     (@uBleDataSetCallbackConnectionStatus smallPlatform specRingBuffer
        (ConnectionStatusResults 0 0 0 0 0) 1 (Some 5%positive) None
        (stateOf idleInstance ∅ [])).2).1 = 0.
Proof.
  destruct (uBleDataSetCallbackConnectionStatus_set_clear
              (Pf := smallPlatform) (Rb := specRingBuffer)
              (stateOf idleInstance ∅ [])
              (ConnectionStatusResults 0 0 0 0 0)
              (ConnectionStatusResults 0 0 0 0 0) 1 5%positive None
              1%positive)
    as (_ & Hclear & _); [side_condition..|].
  exact Hclear.
Defined.

Lemma uBleDataSetDataAvailableCallback_opens_once_witness :
  gBleDataEventQueue
    (@uBleDataSetDataAvailableCallback smallPlatform specRingBuffer 0 3 0 1
       (Some 6%positive) None (stateOf idleInstance ∅ [])).2 = 3.
Proof.
  destruct (uBleDataSetDataAvailableCallback_opens_once
              (Pf := smallPlatform) (Rb := specRingBuffer)
              (stateOf idleInstance ∅ []) 0 3 0 1 6%positive None 1%positive)
    as [_ Hopened]; [side_condition..|].
  apply Hopened; side_condition.
Defined.

Lemma uBleDataSetDataAvailableCallback_closes_shared_queue_witness :
  gBleDataEventQueue
    (@uBleDataSetDataAvailableCallback smallPlatform specRingBuffer 0 0 0 1
       None None (withEventQueue 5 (stateOf listeningInstance ∅ []))).2 = -2
  ∧ pBtDataAvailableCallback
      (instances
         (@uBleDataSetDataAvailableCallback smallPlatform specRingBuffer 0 0
            0 1 None None
            (withEventQueue 5 (stateOf listeningInstance ∅ []))).2
         2%positive)
    = Some 6%positive.
Proof.
  destruct (uBleDataSetDataAvailableCallback_closes_shared_queue
              (Pf := smallPlatform) (Rb := specRingBuffer)
              (withEventQueue 5 (stateOf listeningInstance ∅ [])) 0 0 0 1
              1%positive 2%positive 6%positive)
    as (Hclosed & Hkept & _); [side_condition..|].
  split; [exact Hclosed|exact Hkept].
Defined.

Lemma data_callbacks_share_parameter_witness :
  trace
    (dataCallback 0 3 [x01] (Some 1%positive)
       (@uBleDataSetDataAvailableCallback smallPlatform specRingBuffer 0 3 0
          1 (Some 6%positive) (Some 8%positive)
          (@uBleDataSetCallbackData smallPlatform specRingBuffer 0 0 1
             (Some 3%positive) (Some 4%positive)
             (stateOf idleInstance ∅ [])).2).2)
  = trace
      (@uBleDataSetDataAvailableCallback smallPlatform specRingBuffer 0 3 0 1
         (Some 6%positive) (Some 8%positive)
         (@uBleDataSetCallbackData smallPlatform specRingBuffer 0 0 1
            (Some 3%positive) (Some 4%positive)
            (stateOf idleInstance ∅ [])).2).2
    ++ [callBtDataCallback 3%positive 3 [x01] (Some 8%positive)].
Proof.
  destruct (data_callbacks_share_parameter (Pf := smallPlatform)
              (Rb := specRingBuffer) (stateOf idleInstance ∅ []) 0 0 0 0 3 1
              0 3 [x01] 3%positive 6%positive (Some 4%positive)
              (Some 8%positive) 1%positive)
    as [_ Hsecond]; [side_condition..|].
  exact Hsecond.
Defined.

(** The address 0012F398DD12p, with its terminator. *)
Lemma uBleDataConnectSps_url_witness :
  ∃ url,
    @uBleDataConnectSps smallPlatform smallModes 0 0 2 1
      [x30; x30; x31; x32; x46; x33; x39; x38; x44; x44; x31; x32; x70; x00]
    = (0,
       [uAtClientLock; uAtClientCommandStart AT_UDCP;
        uAtClientWriteString url; uAtClientCommandStop;
        uAtClientResponseStart; uAtClientReadInt; uAtClientResponseStop;
        uAtClientUnlock])
    ∧ cString url
      = [x73; x70; x73; x3a; x2f; x2f; x30; x30; x31; x32; x46; x33; x39;
         x38; x44; x44; x31; x32; x70].
Proof.
  destruct (uBleDataConnectSps_url (Pf := smallPlatform) (Pm := smallModes)
              0 0 2 1
              [x30; x30; x31; x32; x46; x33; x39; x38; x44; x44; x31; x32;
               x70; x00] 1%positive)
    as (url & Hcall & _ & Hstring & _);
    [reflexivity|reflexivity|right; reflexivity|simpl; lia|].
  exists url. split; [exact Hcall|exact Hstring].
Defined.

(** An instance in data mode (1). *)
Lemma uBleDataConnectSps_refused_witness :
  @uBleDataConnectSps smallPlatform smallModes 0 0 1 1 [x30; x00]
  = (-4097, []).
Proof.
  apply (uBleDataConnectSps_refused (Pf := smallPlatform)
           (Pm := smallModes) 0 0 1 1 [x30; x00]).
  intros (_ & _ & [Hmode|Hmode]); discriminate Hmode.
Defined.
